(** * MKTAI: conversation orchestration and staged reveal

    A shallow embedding of [src/components/MKTAI.tsx]: the conversation
    log, the memory digest, the request dispatcher with its two
    continuations, the timers that release the processing flag and reveal
    the results, and the helpers the response view uses.

    Conventions.
    - A JavaScript string is a [string]: a sequence of code units, here
      restricted to the 8-bit range.
    - An optional property [f?: T] is a field of type [option T]; [None]
      is the missing key.  A property typed [T | null] carries the null
      inside: [option (option T)].
    - The React state of the component is one record, [State]; every
      handler is a function on it.  What the browser holds for the
      component (the fetches in flight, the pending timers) is part of
      that record too, so that an event of the browser is a step of the
      machine.
    - Time is the millisecond clock; every reading of it is an input. *)

From Stdlib Require Import List String Ascii ZArith Lia Bool DecimalString.
From Stdlib Require DecimalZ DecimalPos.
Import ListNotations.

#[local] Set Warnings "-register-all".
#[local] Open Scope string_scope.
#[local] Open Scope Z_scope.

(** ** JavaScript values *)

Module Js.

(** What [JSON.parse] can produce. An object is the list of its own
    properties, each key once. *)
Inductive Value : Type :=
| Null
| Bool (b : bool)
| Num (n : Z)
| Str (s : string)
| Arr (items : list Value)
| Obj (props : list (string * Value)).

Inductive Type_ : Set := TUndefined | TBoolean | TNumber | TString | TObject.

(** [typeof v], with [None] for [undefined]. Null and arrays are objects. *)
Definition typeof (v : option Value) : Type_ :=
  match v with
  | None => TUndefined
  | Some (Bool _) => TBoolean
  | Some (Num _) => TNumber
  | Some (Str _) => TString
  | Some Null | Some (Arr _) | Some (Obj _) => TObject
  end.

Definition isObjectType (t : Type_) : bool :=
  match t with TObject => true | _ => false end.

Definition isArray (v : Value) : bool :=
  match v with Arr _ => true | _ => false end.

Definition isNull (v : Value) : bool :=
  match v with Null => true | _ => false end.

(** [Boolean(v)]. *)
Definition truthy (v : Value) : bool :=
  match v with
  | Null => false
  | Bool b => b
  | Num n => negb (n =? 0)
  | Str s => negb (s =? "")%string
  | Arr _ | Obj _ => true
  end.

Fixpoint lookup (k : string) (props : list (string * Value)) : option Value :=
  match props with
  | [] => None
  | (k', v) :: rest => if (k' =? k)%string then Some v else lookup k rest
  end.

(** [v.k]: the property of an object, [undefined] on anything else that
    the callers below can reach. *)
Definition prop (k : string) (v : Value) : option Value :=
  match v with
  | Obj props => lookup k props
  | _ => None
  end.

(** Truthiness of a string-typed optional property. *)
Definition truthyStr (s : option string) : bool :=
  match s with
  | Some (String _ _) => true
  | _ => false
  end.

(** [n.toString()] and [`${n}`] for an integer. *)
Definition toString (n : Z) : string := NilZero.string_of_int (Z.to_int n).

Definition nl : string := String "010"%char EmptyString.

End Js.

(** ** Data model *)

Record UserProfile : Type := {
  allergies : list string;
  conditions : list string;
  goals : list string
}.

(** [AgentResponse], also read as [Partial<AgentResponse>]: every key may
    be missing.  [product_json] stays a raw value: the code inspects its
    shape at run time. *)
Record AgentResponse : Type := {
  user_query : option string;
  user_profile : option UserProfile;
  image_data : option (option string);
  product_json : option Js.Value;
  plan : option string;
  search_needed : option bool;
  search_queries : option (list string);
  search_results : option string;
  final_verdict : option string;
  reasoning : option string;
  next_suggestion : option (list string);
  suggested_next_steps : option (list string);
  conversation_summary : option string
}.

Inductive MessageType : Set := user | agent.

Record Message : Type := {
  id : string;
  type : MessageType;
  content : string;
  agentResponse : option AgentResponse;
  timestamp : Z;
  isStreaming : option bool
}.

Definition DEFAULT_PROFILE : UserProfile :=
  {| allergies := []; conditions := []; goals := [] |}.

(** The object literal [{}]. *)
Definition emptyResponse : AgentResponse :=
  {| user_query := None; user_profile := None; image_data := None;
     product_json := None; plan := None; search_needed := None;
     search_queries := None; search_results := None; final_verdict := None;
     reasoning := None; next_suggestion := None; suggested_next_steps := None;
     conversation_summary := None |}.

(** ** getValidProduct *)

(** The predicate handed to [input.find]. *)
Definition qualifies (item : Js.Value) : bool :=
  Js.isObjectType (Js.typeof (Some item))
  && negb (Js.isNull item)
  && negb (Js.isArray item)
  && (Js.isObjectType (Js.typeof (Js.prop "NutritionFacts" item))
      || Js.isObjectType (Js.typeof (Js.prop "IngredientList" item))).

(** [None] is the [null] the function returns. *)
Definition getValidProduct (input : option Js.Value) : option Js.Value :=
  match input with
  | None => None
  | Some v =>
      if negb (Js.truthy v) then None
      else match v with
           | Js.Arr items => find qualifies items
           | _ => Some v
           end
  end.

(** ** What the response view derives from a payload *)

(** [s.split('. ')]: the pieces between the occurrences of the separator,
    found from the left. *)
Definition extend (c : ascii) (pieces : list string) : list string :=
  match pieces with
  | [] => [String c EmptyString]
  | piece :: rest => String c piece :: rest
  end.

Fixpoint split_dot_space (s : string) : list string :=
  match s with
  | EmptyString => [EmptyString]
  | String c rest =>
      match rest with
      | String c' rest' =>
          if ((c =? ".") && (c' =? " "))%char
          then EmptyString :: split_dot_space rest'
          else extend c (split_dot_space rest)
      | EmptyString => extend c (split_dot_space rest)
      end
  end.

Definition planSteps (data : AgentResponse) : list string :=
  match plan data with
  | Some ((String _ _) as p) =>
      firstn 5 (filter (fun step => (5 <? String.length step)%nat) (split_dot_space p))
  | _ => []
  end.

Definition suggestions (data : AgentResponse) : list string :=
  match suggested_next_steps data with
  | Some ((_ :: _) as l) => l
  | _ => match next_suggestion data with
         | Some l => l
         | None => []
         end
  end.

(** ** The reveal delay of the dispatcher *)

Definition planStepCount (data : AgentResponse) : nat :=
  match plan data with
  | Some ((String _ _) as p) => Nat.min (List.length (split_dot_space p)) 5
  | _ => 3%nat
  end.

Definition animationTime (data : AgentResponse) : Z :=
  Z.min (Z.max (Z.of_nat (planStepCount data) * 1000) 3000) 8000.

(** ** The component state *)

(** The [File] a user picked: an opaque blob, here its name. *)
Definition File : Type := string.

(** One call of [fetch] that has not settled yet: the variables its
    continuation closes over, and the form data it sent. *)
Record Request : Type := {
  req_agentMsgId : string;
  req_imageData : option string;
  form_user_query : string;
  form_user_profile : UserProfile;
  form_image_data : option string;
  form_next_suggestion : list string;
  form_file : option File
}.

(** The local state of one [AgentResponseView]: its two [useState] cells,
    the dependencies its effect last ran with ([None] before the first
    run) and the due time of the timer that run left pending, if any. *)
Record View : Type := {
  showResults : bool;
  isExpanded : bool;
  deps : option (bool * option string);
  timer : option Z
}.

Definition unmounted : View :=
  {| showResults := false; isExpanded := true; deps := None; timer := None |}.

(** What a handler closes over: the [messages] and [userProfile] of the
    render that created it. *)
Record Closure : Type := {
  seenMessages : list Message;
  seenProfile : UserProfile
}.

(** A [FileReader] at work: the file it loads and the closure of the
    [handleFileSelect] that started it. *)
Record Reader : Type := {
  readerFile : File;
  readerSeen : Closure
}.

Record State : Type := {
  messages : list Message;
  inputValue : string;
  isProcessing : bool;
  currentProcessLog : string;
  userProfile : UserProfile;
  (* one view per position of the log; the log only grows *)
  views : list View;
  (* fetches in flight, oldest first *)
  inflight : list Request;
  (* due times of the pending [setIsProcessing(false)] timers *)
  releaseTimers : list Z;
  (* the [FileReader]s still loading *)
  readers : list Reader
}.

Definition initial : State :=
  {| messages := []; inputValue := ""; isProcessing := false;
     currentProcessLog := ""; userProfile := DEFAULT_PROFILE;
     views := []; inflight := []; releaseTimers := []; readers := [] |}.

Definition closureOf (s : State) : Closure :=
  {| seenMessages := messages s; seenProfile := userProfile s |}.

Definition viewAt (s : State) (i : nat) : View := nth i (views s) unmounted.

(** ** updateAgentMsg *)

(** [{ ...a, ...b }] on payloads: a key of [b] wins, a key only [a] has stays. *)
Definition over {A : Type} (a b : option A) : option A :=
  match b with
  | Some _ => b
  | None => a
  end.

Definition spread (a b : AgentResponse) : AgentResponse :=
  {| user_query := over (user_query a) (user_query b);
     user_profile := over (user_profile a) (user_profile b);
     image_data := over (image_data a) (image_data b);
     product_json := over (product_json a) (product_json b);
     plan := over (plan a) (plan b);
     search_needed := over (search_needed a) (search_needed b);
     search_queries := over (search_queries a) (search_queries b);
     search_results := over (search_results a) (search_results b);
     final_verdict := over (final_verdict a) (final_verdict b);
     reasoning := over (reasoning a) (reasoning b);
     next_suggestion := over (next_suggestion a) (next_suggestion b);
     suggested_next_steps := over (suggested_next_steps a) (suggested_next_steps b);
     conversation_summary := over (conversation_summary a) (conversation_summary b) |}.

Definition merged (m : Message) (updates : AgentResponse) : Message :=
  {| id := id m; type := type m; content := content m;
     agentResponse :=
       Some (spread (match agentResponse m with
                     | Some r => r
                     | None => emptyResponse
                     end) updates);
     timestamp := timestamp m;
     isStreaming := Some false |}.

Definition updateAgentMsg (msgId : string) (updates : AgentResponse)
  (prev : list Message) : list Message :=
  map (fun m => if (id m =? msgId)%string then merged m updates else m) prev.

(** ** The memory digest built by sendPromptToBackend *)

Definition contextLine (m : Message) : string :=
  match type m with
  | user => "User: " ++ content m ++ Js.nl
  | agent =>
      match agentResponse m with
      | Some r =>
          "AI Verdict: "
          ++ (if Js.truthyStr (final_verdict r)
              then match final_verdict r with Some v => v | None => "" end
              else "Unknown")
          ++ Js.nl
      | None => ""
      end
  end.

(** [messages.slice(-6)]. *)
Definition recentMessages (msgs : list Message) : list Message :=
  skipn (List.length msgs - 6) msgs.

Definition memoryContext (msgs : list Message) : string :=
  match msgs with
  | [] => ""
  | _ :: _ =>
      fold_left (fun acc m => acc ++ contextLine m) (recentMessages msgs)
        ("PREVIOUS CONVERSATION CONTEXT:" ++ Js.nl)
      ++ Js.nl ++ "CURRENT QUESTION:" ++ Js.nl
  end.

Definition finalPromptToSend (msgs : list Message) (prompt : string) : string :=
  match memoryContext msgs with
  | EmptyString => prompt
  | (String _ _) as ctx => ctx ++ prompt
  end.

(** ** The effect of AgentResponseView *)

Definition sameDeps (old : option (bool * option string))
  (new : bool * option string) : bool :=
  match old with
  | None => false
  | Some (p, v) =>
      Bool.eqb p (fst new)
      && match v, snd new with
         | None, None => true
         | Some a, Some b => (a =? b)%string
         | _, _ => false
         end
  end.

(** One render of a view at time [now]: when a dependency changed, the
    cleanup of the previous run clears its timer and the effect runs again;
    it arms the 1500 ms timer only under its guard. *)
Definition runEffect (now : Z) (processing : bool) (data : AgentResponse)
  (v : View) : View :=
  let d := (processing, final_verdict data) in
  if sameDeps (deps v) d then v
  else {| showResults := showResults v;
          isExpanded := isExpanded v;
          deps := Some d;
          timer := if negb processing && Js.truthyStr (final_verdict data)
                   then Some (now + 1500)
                   else None |}.

(** The views exist for the agent messages that carry a response. *)
Fixpoint renderViews (now : Z) (processing : bool) (msgs : list Message)
  (vs : list View) : list View :=
  match msgs with
  | [] => []
  | m :: rest =>
      let v := hd unmounted vs in
      match type m, agentResponse m with
      | agent, Some data => runEffect now processing data v
      | _, _ => v
      end :: renderViews now processing rest (tl vs)
  end.

Definition render (now : Z) (s : State) : State :=
  {| messages := messages s; inputValue := inputValue s;
     isProcessing := isProcessing s; currentProcessLog := currentProcessLog s;
     userProfile := userProfile s;
     views := renderViews now (isProcessing s) (messages s) (views s);
     inflight := inflight s; releaseTimers := releaseTimers s;
     readers := readers s |}.

(** ** sendPromptToBackend, up to the call of fetch *)

(** The clock readings of one call: the two [Date.now()] and the two
    [new Date()]. *)
Record Readings : Type := {
  nowUser : Z;
  nowAgent : Z;
  dateUser : Z;
  dateAgent : Z
}.

(** The two turns of a call. *)
Definition userMsg (clk : Readings) (prompt : string) : Message :=
  {| id := Js.toString (nowUser clk); type := user; content := prompt;
     agentResponse := None; timestamp := dateUser clk; isStreaming := None |}.

Definition agentMsg (clk : Readings) (prompt : string)
  (imageData : option string) : Message :=
  {| id := Js.toString (nowAgent clk + 1); type := agent; content := "";
     agentResponse :=
       Some {| user_query := Some prompt; user_profile := None;
               image_data := Some imageData; product_json := None;
               plan := None; search_needed := None; search_queries := None;
               search_results := None; final_verdict := None;
               reasoning := None; next_suggestion := None;
               suggested_next_steps := None; conversation_summary := None |};
     timestamp := dateAgent clk; isStreaming := Some true |}.

Definition sendPromptToBackend (seen : Closure) (clk : Readings)
  (prompt : string) (imageData : option string) (file : option File)
  (s : State) : State :=
  let agentMsgId := id (agentMsg clk prompt imageData) in
  let request :=
    {| req_agentMsgId := agentMsgId; req_imageData := imageData;
       form_user_query := finalPromptToSend (seenMessages seen) prompt;
       form_user_profile := seenProfile seen;
       form_image_data := None; form_next_suggestion := [];
       form_file := file |} in
  {| messages := (messages s ++ [userMsg clk prompt])
                 ++ [agentMsg clk prompt imageData];
     inputValue := inputValue s;
     isProcessing := true;
     currentProcessLog := "Analyzing request...";
     userProfile := userProfile s;
     views := views s;
     inflight := inflight s ++ [request];
     releaseTimers := releaseTimers s;
     readers := readers s |}.

(** ** sendPromptToBackend, after fetch settled *)

(** The body of a response, as [res.json()] sees it: not JSON (the promise
    rejects with a message), or JSON, given both as the payload it decodes
    to and as the text [JSON.stringify] gives back for it. *)
Inductive Body : Type :=
| NotJson (message : string)
| Json (data : AgentResponse) (text : string).

Inductive FetchResult : Type :=
| Rejected (message : string)
| Responded (status : Z) (body : Body).

(** [res.ok]. *)
Definition ok (status : Z) : bool := (200 <=? status) && (status <=? 299).

Definition fallback (message : string) : AgentResponse :=
  {| user_query := None; user_profile := None; image_data := None;
     product_json := Some Js.Null; plan := None; search_needed := None;
     search_queries := None; search_results := None;
     final_verdict := Some "CAUTION";
     reasoning := Some ("Error connecting to AI Server: " ++ message ++ ".");
     next_suggestion := None; suggested_next_steps := None;
     conversation_summary := None |}.

(** The [catch] block. *)
Definition onError (req : Request) (message : string) (s : State) : State :=
  {| messages := updateAgentMsg (req_agentMsgId req) (fallback message) (messages s);
     inputValue := inputValue s;
     isProcessing := false;
     currentProcessLog := "";
     userProfile := userProfile s;
     views := views s; inflight := inflight s;
     releaseTimers := releaseTimers s;
     readers := readers s |}.

Definition withImage (imageData : option string) (data : AgentResponse)
  : AgentResponse :=
  if Js.truthyStr imageData then
    {| user_query := user_query data; user_profile := user_profile data;
       image_data := Some imageData; product_json := product_json data;
       plan := plan data; search_needed := search_needed data;
       search_queries := search_queries data;
       search_results := search_results data;
       final_verdict := final_verdict data; reasoning := reasoning data;
       next_suggestion := next_suggestion data;
       suggested_next_steps := suggested_next_steps data;
       conversation_summary := conversation_summary data |}
  else data.

(** The rest of the [try] block, run at time [now]. *)
Definition onSuccess (now : Z) (req : Request) (decoded : AgentResponse)
  (s : State) : State :=
  let data := withImage (req_imageData req) decoded in
  {| messages := updateAgentMsg (req_agentMsgId req) data (messages s);
     inputValue := inputValue s;
     isProcessing := isProcessing s;
     currentProcessLog := "Cross-referencing safety guidelines...";
     userProfile := match user_profile data with
                    | Some p => p
                    | None => userProfile s
                    end;
     views := views s; inflight := inflight s;
     releaseTimers := releaseTimers s ++ [now + animationTime data];
     readers := readers s |}.

Definition settle (now : Z) (req : Request) (result : FetchResult)
  (s : State) : State :=
  match result with
  | Rejected message => onError req message s
  | Responded status body =>
      if ok status then
        match body with
        | Json data _ => onSuccess now req data s
        | NotJson message => onError req message s
        end
      else
        match body with
        | Json _ text =>
            onError req ("Server Error " ++ Js.toString status ++ ": " ++ text) s
        | NotJson message => onError req message s
        end
  end.

(** ** handleSubmit *)

(** The white space [trim] removes, among the code units below 256. *)
Definition isWhiteSpace (c : ascii) : bool :=
  let n := N_of_ascii c in
  ((9 <=? n) && (n <=? 13) || (n =? 32) || (n =? 160))%N.

Fixpoint trimStart (s : string) : string :=
  match s with
  | EmptyString => EmptyString
  | String c rest => if isWhiteSpace c then trimStart rest else s
  end.

Fixpoint trimEnd (s : string) : string :=
  match s with
  | EmptyString => EmptyString
  | String c rest =>
      match trimEnd rest with
      | EmptyString => if isWhiteSpace c then EmptyString else String c EmptyString
      | (String _ _) as kept => String c kept
      end
  end.

Definition trim (s : string) : string := trimEnd (trimStart s).

Definition nonEmpty (s : string) : bool :=
  match s with
  | EmptyString => false
  | String _ _ => true
  end.

(** The guard of [handleSubmit]. *)
Definition submits (s : State) : bool :=
  nonEmpty (trim (inputValue s)) && negb (isProcessing s).

Definition setInputValue (text : string) (s : State) : State :=
  {| messages := messages s; inputValue := text;
     isProcessing := isProcessing s; currentProcessLog := currentProcessLog s;
     userProfile := userProfile s; views := views s; inflight := inflight s;
     releaseTimers := releaseTimers s;
     readers := readers s |}.

Definition handleSubmit (clk : Readings) (s : State) : State :=
  if submits s
  then setInputValue ""
         (sendPromptToBackend (closureOf s) clk (inputValue s) None None s)
  else s.

(** ** The events of the browser and the step they cause *)

Inductive Event : Type :=
| InputChange (text : string)
| Submit (clk : Readings)
| FollowUpClick (i : nat) (txt : string) (clk : Readings)
| ResearchClick (clk : Readings)
| FileChosen (file : File)
| FileLoaded (r : nat) (base64String : string) (clk : Readings)
| FetchSettled (k : nat) (result : FetchResult) (now : Z)
| ReleaseFires (k : nat)
| RevealFires (i : nat).

Fixpoint removeNth {A : Type} (k : nat) (l : list A) : list A :=
  match l, k with
  | [], _ => []
  | _ :: rest, O => rest
  | x :: rest, S k' => x :: removeNth k' rest
  end.

Fixpoint setNth {A : Type} (k : nat) (a : A) (l : list A) : list A :=
  match l, k with
  | [], _ => []
  | _ :: rest, O => a :: rest
  | x :: rest, S k' => x :: setNth k' a rest
  end.

(** A suggestion button of the view at position [i] exists once the view
    shows its results, and is disabled while processing. *)
Definition offers (s : State) (i : nat) (txt : string) : bool :=
  match nth_error (messages s) i with
  | Some m =>
      match type m, agentResponse m with
      | agent, Some data =>
          showResults (viewAt s i)
          && existsb (String.eqb txt) (suggestions data)
          && negb (isProcessing s)
      | _, _ => false
      end
  | None => false
  end.

(** The landing panel with the research button. *)
Definition landing (s : State) : bool :=
  (List.length (messages s) =? 0)%nat && negb (isProcessing s).

(** The callback of the timer armed by [onSuccess]. *)
Definition release (k : nat) (s : State) : State :=
  {| messages := messages s; inputValue := inputValue s;
     isProcessing := false; currentProcessLog := "";
     userProfile := userProfile s; views := views s; inflight := inflight s;
     releaseTimers := removeNth k (releaseTimers s);
     readers := readers s |}.

(** The callback of the timer armed by the effect of view [i]. *)
Definition reveal (i : nat) (s : State) : State :=
  {| messages := messages s; inputValue := inputValue s;
     isProcessing := isProcessing s; currentProcessLog := currentProcessLog s;
     userProfile := userProfile s;
     views := setNth i {| showResults := true; isExpanded := false;
                          deps := deps (viewAt s i); timer := None |} (views s);
     inflight := inflight s; releaseTimers := releaseTimers s;
     readers := readers s |}.

Definition forget (k : nat) (s : State) : State :=
  {| messages := messages s; inputValue := inputValue s;
     isProcessing := isProcessing s; currentProcessLog := currentProcessLog s;
     userProfile := userProfile s; views := views s;
     inflight := removeNth k (inflight s);
     releaseTimers := releaseTimers s;
     readers := readers s |}.

(** [handleFileSelect] with a file: a reader starts loading it. *)
Definition handleFileSelect (file : File) (s : State) : State :=
  {| messages := messages s; inputValue := inputValue s;
     isProcessing := isProcessing s; currentProcessLog := currentProcessLog s;
     userProfile := userProfile s; views := views s; inflight := inflight s;
     releaseTimers := releaseTimers s;
     readers := readers s
                ++ [{| readerFile := file; readerSeen := closureOf s |}] |}.

Definition dropReader (r : nat) (s : State) : State :=
  {| messages := messages s; inputValue := inputValue s;
     isProcessing := isProcessing s; currentProcessLog := currentProcessLog s;
     userProfile := userProfile s; views := views s; inflight := inflight s;
     releaseTimers := releaseTimers s;
     readers := removeNth r (readers s) |}.

(** One event.  The component renders again, and the effects run, when the
    handler set some state; a timer fires at its due time. *)
Definition step (s : State) (e : Event) : State :=
  match e with
  | InputChange text => setInputValue text s
  | Submit clk =>
      if submits s then render (dateAgent clk) (handleSubmit clk s) else s
  | FollowUpClick i txt clk =>
      if offers s i txt
      then render (dateAgent clk)
             (sendPromptToBackend (closureOf s) clk txt None None s)
      else s
  | ResearchClick clk =>
      if landing s
      then render (dateAgent clk)
             (sendPromptToBackend (closureOf s) clk
                "Is Ashwagandha safe for hypothyroidism?" None None s)
      else s
  | FileChosen file => handleFileSelect file s
  | FileLoaded r base64String clk =>
      match nth_error (readers s) r with
      | Some reader =>
          render (dateAgent clk)
            (sendPromptToBackend (readerSeen reader) clk "Analyze this label"
               (Some base64String) (Some (readerFile reader)) (dropReader r s))
      | None => s
      end
  | FetchSettled k result now =>
      match nth_error (inflight s) k with
      | Some req => render now (settle now req result (forget k s))
      | None => s
      end
  | ReleaseFires k =>
      match nth_error (releaseTimers s) k with
      | Some due => render due (release k s)
      | None => s
      end
  | RevealFires i =>
      match timer (viewAt s i) with
      | Some due => render due (reveal i s)
      | None => s
      end
  end.

Definition run (s : State) (events : list Event) : State :=
  fold_left step events s.

Inductive Reachable : State -> Prop :=
| ReachInitial : Reachable initial
| ReachStep (s : State) (e : Event) : Reachable s -> Reachable (step s e).

(** ** The vocabulary of the specification *)

Definition clamp (x lo hi : Z) : Z := Z.min (Z.max x lo) hi.

(** The specification's [planStepCount]: the count of the plan's steps,
    capped at 5, and 3 when no plan came back. *)
Definition countOfPlanSteps (data : AgentResponse) : nat :=
  match plan data with
  | Some p => Nat.min (List.length (split_dot_space p)) 5
  | None => 3%nat
  end.

(** An element exposes a nutrition-facts mapping, or an ingredient list. *)
Definition exposesNutritionFacts (item : Js.Value) : bool :=
  match Js.prop "NutritionFacts" item with
  | Some (Js.Obj _) => true
  | _ => false
  end.

Definition exposesIngredientList (item : Js.Value) : bool :=
  match Js.prop "IngredientList" item with
  | Some (Js.Arr _) => true
  | _ => false
  end.

Definition usable (item : Js.Value) : bool :=
  match item with
  | Js.Obj _ => exposesNutritionFacts item || exposesIngredientList item
  | _ => false
  end.

(** The Subject Selector as the specification words it. *)
Definition subjectSelector (input : option Js.Value) : option Js.Value :=
  match input with
  | None | Some Js.Null => None
  | Some (Js.Arr items) => find usable items
  | Some v => Some v
  end.

(** The resolution rule for the suggestions as the specification words it:
    the newer field when present, else the older, else nothing. *)
Definition newerWins (data : AgentResponse) : list string :=
  match suggested_next_steps data, next_suggestion data with
  | Some newer, _ => newer
  | None, Some older => older
  | None, None => []
  end.

Fixpoint onlyWhiteSpace (s : string) : bool :=
  match s with
  | EmptyString => true
  | String c rest => isWhiteSpace c && onlyWhiteSpace rest
  end.

(** The keys of a payload. *)
Inductive Field : Set :=
| UserQuery | Profile | ImageData | ProductJson | Plan | SearchNeeded
| SearchQueries | SearchResults | FinalVerdict | Reasoning | NextSuggestion
| SuggestedNextSteps | ConversationSummary.

Definition isSome {A : Type} (o : option A) : bool :=
  match o with Some _ => true | None => false end.

(** The payload has the key. *)
Definition has (f : Field) (r : AgentResponse) : bool :=
  match f with
  | UserQuery => isSome (user_query r)
  | Profile => isSome (user_profile r)
  | ImageData => isSome (image_data r)
  | ProductJson => isSome (product_json r)
  | Plan => isSome (plan r)
  | SearchNeeded => isSome (search_needed r)
  | SearchQueries => isSome (search_queries r)
  | SearchResults => isSome (search_results r)
  | FinalVerdict => isSome (final_verdict r)
  | Reasoning => isSome (reasoning r)
  | NextSuggestion => isSome (next_suggestion r)
  | SuggestedNextSteps => isSome (suggested_next_steps r)
  | ConversationSummary => isSome (conversation_summary r)
  end.

(** Two payloads agree on the key. *)
Definition same (f : Field) (a b : AgentResponse) : Prop :=
  match f with
  | UserQuery => user_query a = user_query b
  | Profile => user_profile a = user_profile b
  | ImageData => image_data a = image_data b
  | ProductJson => product_json a = product_json b
  | Plan => plan a = plan b
  | SearchNeeded => search_needed a = search_needed b
  | SearchQueries => search_queries a = search_queries b
  | SearchResults => search_results a = search_results b
  | FinalVerdict => final_verdict a = final_verdict b
  | Reasoning => reasoning a = reasoning b
  | NextSuggestion => next_suggestion a = next_suggestion b
  | SuggestedNextSteps => suggested_next_steps a = suggested_next_steps b
  | ConversationSummary => conversation_summary a = conversation_summary b
  end.

(** The payload of a message, [{}] when it has none. *)
Definition payloadOf (m : Message) : AgentResponse :=
  match agentResponse m with
  | Some r => r
  | None => emptyResponse
  end.

(** Payloads with one or two keys, for the examples. *)
Definition onlyVerdict (v : string) : AgentResponse :=
  {| user_query := None; user_profile := None; image_data := None;
     product_json := None; plan := None; search_needed := None;
     search_queries := None; search_results := None; final_verdict := Some v;
     reasoning := None; next_suggestion := None; suggested_next_steps := None;
     conversation_summary := None |}.

Definition onlyReasoning (r : string) : AgentResponse :=
  {| user_query := None; user_profile := None; image_data := None;
     product_json := None; plan := None; search_needed := None;
     search_queries := None; search_results := None; final_verdict := None;
     reasoning := Some r; next_suggestion := None; suggested_next_steps := None;
     conversation_summary := None |}.

Definition onlyPlan (p : string) : AgentResponse :=
  {| user_query := None; user_profile := None; image_data := None;
     product_json := None; plan := Some p; search_needed := None;
     search_queries := None; search_results := None; final_verdict := None;
     reasoning := None; next_suggestion := None; suggested_next_steps := None;
     conversation_summary := None |}.

Definition onlySuggestions (newer older : option (list string)) : AgentResponse :=
  {| user_query := None; user_profile := None; image_data := None;
     product_json := None; plan := None; search_needed := None;
     search_queries := None; search_results := None; final_verdict := None;
     reasoning := None; next_suggestion := older;
     suggested_next_steps := newer; conversation_summary := None |}.

(** All four clock readings of a call at the same millisecond. *)
Definition at_ (t : Z) : Readings :=
  {| nowUser := t; nowAgent := t; dateUser := t; dateAgent := t |}.

(** An element is shaped as [ProductData] declares it: an object whose
    [NutritionFacts], when present, is an object and whose
    [IngredientList], when present, is an array. *)
Definition shaped (item : Js.Value) : bool :=
  match item with
  | Js.Obj _ =>
      match Js.prop "NutritionFacts" item with
      | None | Some (Js.Obj _) => true
      | Some _ => false
      end
      && match Js.prop "IngredientList" item with
         | None | Some (Js.Arr _) => true
         | Some _ => false
         end
  | _ => false
  end.

(** Two candidate parses of a label: the first with its nutrition facts
    null, the second with one nutrition fact. *)
Definition nullFacts : Js.Value :=
  Js.Obj [("product_name", Js.Str "Oat bar"); ("NutritionFacts", Js.Null)].

Definition withFacts : Js.Value :=
  Js.Obj [("product_name", Js.Str "Oat bar");
          ("NutritionFacts", Js.Obj [("Calories", Js.Str "190")])].

Definition candidates : Js.Value := Js.Arr [nullFacts; withFacts].

(** A state with a given text in the input box. *)
Definition typed (text : string) : State := setInputValue text initial.

(** An agent turn as [sendPromptToBackend] creates it. *)
Definition pendingTurn (msgId prompt : string) : Message :=
  {| id := msgId; type := agent; content := "";
     agentResponse :=
       Some {| user_query := Some prompt; user_profile := None;
               image_data := Some None; product_json := None;
               plan := None; search_needed := None; search_queries := None;
               search_results := None; final_verdict := None;
               reasoning := None; next_suggestion := None;
               suggested_next_steps := None; conversation_summary := None |};
     timestamp := 0; isStreaming := Some true |}.

(** The digest, as the specification words it. *)
Definition header : string := "PREVIOUS CONVERSATION CONTEXT:" ++ Js.nl.

Definition marker : string := Js.nl ++ "CURRENT QUESTION:" ++ Js.nl.

Definition joinLines (lines : list string) : string :=
  fold_right append EmptyString lines.

(** The line of a turn: the final verdict, or "Unknown" if it is absent. *)
Definition lineAsStated (m : Message) : string :=
  match type m with
  | user => "User: " ++ content m ++ Js.nl
  | agent =>
      "AI Verdict: "
      ++ match final_verdict (payloadOf m) with
         | Some v => v
         | None => "Unknown"
         end
      ++ Js.nl
  end.

(** The line of a turn: the final verdict, or "Unknown" if it is absent
    or empty. *)
Definition digestLine (m : Message) : string :=
  match type m with
  | user => "User: " ++ content m ++ Js.nl
  | agent =>
      "AI Verdict: "
      ++ match final_verdict (payloadOf m) with
         | Some ((String _ _) as v) => v
         | _ => "Unknown"
         end
      ++ Js.nl
  end.

Definition digestOf (line : Message -> string) (msgs : list Message) : string :=
  match msgs with
  | [] => ""
  | _ :: _ => header ++ joinLines (map line (recentMessages msgs)) ++ marker
  end.

(** Every agent turn of a log carries a payload. *)
Definition carriesPayload (m : Message) : Prop :=
  type m = agent -> agentResponse m <> None.

(** A session of one turn whose answer came back with an empty verdict. *)
Definition emptyVerdictSession : State :=
  run initial
    [InputChange "Is it safe?"; Submit (at_ 1000);
     FetchSettled 0 (Responded 200 (Json (onlyVerdict "") "{}")) 1200].

(** The turn a fetch in flight will answer is in the log. *)
Definition owned (msgs : list Message) (req : Request) : Prop :=
  exists m, In m msgs /\ id m = req_agentMsgId req /\ type m = agent.

(** A session with one question asked and its fetch in flight. *)
Definition askedSession : State :=
  run initial [InputChange "Is it safe?"; Submit (at_ 1000)].

(** The message of the error thrown on a response that is not ok. *)
Definition serverError (status : Z) (text : string) : string :=
  "Server Error " ++ Js.toString status ++ ": " ++ text.

(** The session [askedSession] once the backend answered, 200 ms later,
    with a verdict and no plan. *)
Definition answeredSession : State :=
  step askedSession
    (FetchSettled 0 (Responded 200 (Json (onlyVerdict "SAFE") "{}")) 1200).

(** The reveal as the specification words it: when release timer [k]
    fires, the processing flag is cleared and, at that same step, the view
    of turn [i] passes from thinking to results. *)
Definition revealsAtRelease (s : State) (k i : nat) : Prop :=
  isProcessing (step s (ReleaseFires k)) = false
  /\ showResults (viewAt (step s (ReleaseFires k)) i) = true.

Definition flip (t : MessageType) : MessageType :=
  match t with user => agent | agent => user end.

Definition sameType (a b : MessageType) : bool :=
  match a, b with
  | user, user | agent, agent => true
  | _, _ => false
  end.

(** The roles of a log alternate, from [expect] on, and end on an agent
    turn. *)
Fixpoint alternating (expect : MessageType) (msgs : list Message) : bool :=
  match msgs with
  | [] => sameType expect user
  | m :: rest => sameType (type m) expect && alternating (flip expect) rest
  end.

(** The event calls [sendPromptToBackend]. *)
Definition accepts (s : State) (e : Event) : bool :=
  match e with
  | Submit _ => submits s
  | FollowUpClick i txt _ => offers s i txt
  | ResearchClick _ => landing s
  | FileLoaded r _ _ => isSome (nth_error (readers s) r)
  | _ => false
  end.

(** The number of calls of [sendPromptToBackend] along a run. *)
Fixpoint accepted (s : State) (events : list Event) : nat :=
  match events with
  | [] => 0
  | e :: rest => ((if accepts s e then 1 else 0) + accepted (step s e) rest)%nat
  end.

(** A question is submitted at time 1000 while a picked file is still
    loading; the file is loaded one millisecond later. *)
Definition clashSession : State :=
  run initial
    [InputChange "Is it safe?"; FileChosen "label.png"; Submit (at_ 1000);
     FileLoaded 0 "data:image/png;base64,iVBORw0KGgo=" (at_ 1001)].

(** Then the answer to the question arrives. *)
Definition clashAnswered : State :=
  step clashSession
    (FetchSettled 0 (Responded 200 (Json (onlyVerdict "SAFE") "{}")) 1500).

(** ** VerdictBadge and the plan panel *)

(** The three colour schemes of [VerdictBadge]. *)
Inductive BadgeStyle : Set := Emerald | Rose | Amber.

(** [toUpperCase], for code units below 128; the statements about it
    assume such text. *)
Definition toUpperCaseUnit (c : ascii) : ascii :=
  let n := N_of_ascii c in
  if ((97 <=? n) && (n <=? 122))%N then ascii_of_N (n - 32) else c.

Fixpoint toUpperCase (s : string) : string :=
  match s with
  | EmptyString => EmptyString
  | String c rest => String (toUpperCaseUnit c) (toUpperCase rest)
  end.

Fixpoint isAscii (s : string) : bool :=
  match s with
  | EmptyString => true
  | String c rest => (N_of_ascii c <? 128)%N && isAscii rest
  end.

(** [hay.includes(needle)]. *)
Fixpoint includes (needle hay : string) : bool :=
  prefix needle hay
  || match hay with
     | EmptyString => false
     | String _ rest => includes needle rest
     end.

(** The style [VerdictBadge] picks for its [verdict]. *)
Definition VerdictBadge (verdict : string) : BadgeStyle :=
  let v := if nonEmpty verdict then toUpperCase verdict else "UNKNOWN" in
  if includes "SAFE" v then Emerald
  else if includes "AVOID" v then Rose
  else Amber.

(** [step.endsWith('.')]. *)
Fixpoint endsWithDot (s : string) : bool :=
  match s with
  | EmptyString => false
  | String c EmptyString => (c =? ".")%char
  | String _ rest => endsWithDot rest
  end.

(** The text shown for a plan step. *)
Definition stepText (step : string) : string :=
  if endsWithDot step then step else step ++ ".".

(** The line "...and more checks" is shown. *)
Definition moreChecks (data : AgentResponse) : bool :=
  match plan data with
  | Some ((String _ _) as p) =>
      (5 <? List.length
              (filter (fun s => (5 <? String.length s)%nat) (split_dot_space p)))%nat
  | _ => false
  end.

(** [pieces.join('. ')]. *)
Fixpoint join_dot_space (pieces : list string) : string :=
  match pieces with
  | [] => EmptyString
  | [piece] => piece
  | piece :: rest => piece ++ ". " ++ join_dot_space rest
  end.

(** ** More vocabulary for the dispatcher *)

(** The message of the error the [try] block throws for a result of
    [fetch], if it throws: the rejection of [fetch], the rejection of
    [res.json()], or the "Server Error" raised for a response not ok. *)
Definition thrown (result : FetchResult) : option string :=
  match result with
  | Rejected message => Some message
  | Responded _ (NotJson message) => Some message
  | Responded status (Json _ text) =>
      if ok status then None else Some (serverError status text)
  end.

(** [ThinkingIndicator] is on the page. *)
Definition indicatorShown (s : State) : bool :=
  isProcessing s && nonEmpty (currentProcessLog s).

(** A session that picked a file and then asked a question while the file
    was loading. *)
Definition pickedThenAsked : State :=
  run initial [FileChosen "label.png"; InputChange "Is it safe?"; Submit (at_ 1000)].

(** A payload with a profile only. *)
Definition onlyProfile (p : UserProfile) : AgentResponse :=
  {| user_query := None; user_profile := Some p; image_data := None;
     product_json := None; plan := None; search_needed := None;
     search_queries := None; search_results := None; final_verdict := None;
     reasoning := None; next_suggestion := None; suggested_next_steps := None;
     conversation_summary := None |}.

Definition nutAllergy : UserProfile :=
  {| allergies := ["peanuts"]; conditions := []; goals := [] |}.

(** The session [answeredSession] once its release timer and then the
    reveal timer of its turn have fired. *)
Definition revealedSession : State :=
  run answeredSession [ReleaseFires 0; RevealFires 1].

(** The event is [handleFileSelect] or the end of a load. *)
Definition isFileEvent (e : Event) : bool :=
  match e with
  | FileChosen _ | FileLoaded _ _ _ => true
  | _ => false
  end.

(** ** Vocabulary for the revised statements *)

(** The reasoning of a turn contains the status in decimal. *)
Definition embedsStatus (status : Z) (m : Message) : bool :=
  match reasoning (payloadOf m) with
  | Some r => includes (Js.toString status) r
  | None => false
  end.

(** A gateway answers 502 with a page that is not JSON; [res.json()]
    rejects with the parser's message. *)
Definition badGateway : FetchResult :=
  Responded 502 (NotJson "Unexpected token < in JSON at position 0").

(** The events that cannot start a call, settle a fetch or fire a release
    timer: typing, the gated submissions and clicks, and the reveal
    timers. *)
Definition inert (e : Event) : bool :=
  match e with
  | InputChange _ | Submit _ | FollowUpClick _ _ _ | ResearchClick _
  | RevealFires _ => true
  | FileChosen _ | FileLoaded _ _ _ | FetchSettled _ _ _ | ReleaseFires _ => false
  end.

(** * Properties *)

(** ** The reveal delay *)

Lemma planStepCount_le_5 (data : AgentResponse) : (planStepCount data <= 5)%nat.
Proof.
  unfold planStepCount.
  destruct (plan data) as [[|c p]|]; lia.
Qed.

Lemma animationTime_bounds (data : AgentResponse) :
  3000 <= animationTime data <= 5000.
Proof.
  unfold animationTime.
  pose proof (planStepCount_le_5 data). lia.
Qed.

Lemma animationTime_of_plan (data : AgentResponse) (p : string) :
  plan data = Some p ->
  animationTime data
  = clamp (Z.of_nat (Nat.min (List.length (split_dot_space p)) 5) * 1000) 3000 8000.
Proof.
  intros Hp. unfold animationTime, planStepCount, clamp. rewrite Hp.
  destruct p as [|c p]; [simpl; lia | reflexivity].
Qed.

(** C2. For every payload the dispatcher merges, the reveal delay is
    [clamp (planStepCount * 1000) 3000 8000], where [planStepCount] is the
    number of pieces of the plan (split at ". "), capped at 5, and 3 when
    there is no plan.  A plan of 2 steps gives 3000 ms, a plan of 10 steps
    gives 5000 ms, no plan gives 3000 ms. *)
Theorem C2_reveal_delay :
  (forall data,
      animationTime data = clamp (Z.of_nat (countOfPlanSteps data) * 1000) 3000 8000)
  /\ (forall data p,
         plan data = Some p -> List.length (split_dot_space p) = 2%nat ->
         animationTime data = 3000)
  /\ (forall data p,
         plan data = Some p -> List.length (split_dot_space p) = 10%nat ->
         animationTime data = 5000)
  /\ (forall data, plan data = None -> animationTime data = 3000).
Proof.
  split; [| split; [| split]].
  - intros data. unfold countOfPlanSteps.
    destruct (plan data) as [p|] eqn:Hp.
    + now apply animationTime_of_plan.
    + unfold animationTime, planStepCount. rewrite Hp. reflexivity.
  - intros data p Hp Hlen.
    rewrite (animationTime_of_plan data p Hp), Hlen. reflexivity.
  - intros data p Hp Hlen.
    rewrite (animationTime_of_plan data p Hp), Hlen. reflexivity.
  - intros data Hp. unfold animationTime, planStepCount. rewrite Hp. reflexivity.
Qed.

Lemma C2_reveal_delay_witness :
  animationTime (onlyPlan "Check A. Check B") = 3000
  /\ animationTime (onlyPlan "a. b. c. d. e. f. g. h. i. j") = 5000
  /\ animationTime emptyResponse = 3000.
Proof.
  destruct C2_reveal_delay as (_ & two & ten & none).
  split; [| split].
  - apply (two (onlyPlan "Check A. Check B") "Check A. Check B"); reflexivity.
  - apply (ten (onlyPlan "a. b. c. d. e. f. g. h. i. j")
             "a. b. c. d. e. f. g. h. i. j"); reflexivity.
  - apply (none emptyResponse); reflexivity.
Defined.

(** ** The subject of a payload *)

Lemma qualifies_shaped (item : Js.Value) :
  shaped item = true -> qualifies item = usable item.
Proof.
  destruct item as [| b | n | s | items | props]; try discriminate.
  unfold shaped, qualifies, usable, exposesNutritionFacts, exposesIngredientList.
  cbn [Js.typeof Js.isObjectType Js.isNull Js.isArray negb andb].
  destruct (Js.prop "NutritionFacts" (Js.Obj props)) as [[]|];
    destruct (Js.prop "IngredientList" (Js.Obj props)) as [[]|];
    cbn; intros H; try reflexivity; discriminate.
Qed.

Lemma find_ext_Forall {A : Type} (f g : A -> bool) (P : A -> bool) (l : list A) :
  (forall a, P a = true -> f a = g a) ->
  forallb P l = true -> find f l = find g l.
Proof.
  intros Hfg. induction l as [|a l IH]; cbn; [reflexivity|].
  intros H. apply andb_prop in H as [Ha Hl].
  rewrite (Hfg a Ha). destruct (g a); [reflexivity | now apply IH].
Qed.

(** On the inputs the declared type of [product_json] covers, the code is
    the selector of the specification. *)
Lemma getValidProduct_typed :
  getValidProduct None = None
  /\ getValidProduct (Some Js.Null) = None
  /\ (forall props, getValidProduct (Some (Js.Obj props)) = Some (Js.Obj props))
  /\ (forall items,
         forallb shaped items = true ->
         getValidProduct (Some (Js.Arr items)) = subjectSelector (Some (Js.Arr items))).
Proof.
  split; [reflexivity|]. split; [reflexivity|]. split; [reflexivity|].
  intros items H. cbn. now apply find_ext_Forall with (P := shaped); [apply qualifies_shaped|].
Qed.

(** C7. The Subject Selector returns "no subject" for an absent field, a
    single object unchanged, and for an array the first element that is a
    non-array object exposing a nutrition-facts mapping or an ingredient
    list.  The code departs from it on the array [candidates]: it returns
    the first element, whose nutrition facts are null and which has no
    ingredient list, where the selector returns the second. *)
Theorem C7_null_facts_selected :
  getValidProduct (Some candidates) = Some nullFacts
  /\ usable nullFacts = false
  /\ subjectSelector (Some candidates) = Some withFacts
  /\ nullFacts <> withFacts.
Proof.
  repeat split; try reflexivity. discriminate.
Qed.

(** C10. In an array, an element that is a non-array object qualifies as
    soon as [typeof] of its [NutritionFacts] or of its [IngredientList] is
    ["object"], which null satisfies: there is an array whose first
    element has null nutrition facts and no ingredient list, and that
    element is the one selected, before a later element with usable
    data. *)
Theorem C10_object_typed_field_qualifies :
  (forall props,
      Js.typeof (Js.prop "NutritionFacts" (Js.Obj props)) = Js.TObject
      \/ Js.typeof (Js.prop "IngredientList" (Js.Obj props)) = Js.TObject ->
      qualifies (Js.Obj props) = true)
  /\ Js.typeof (Some Js.Null) = Js.TObject
  /\ (exists first later,
         Js.prop "NutritionFacts" first = Some Js.Null
         /\ Js.prop "IngredientList" first = None
         /\ usable later = true
         /\ getValidProduct (Some (Js.Arr [first; later])) = Some first).
Proof.
  split; [| split; [reflexivity|]].
  - intros props [H | H]; unfold qualifies; rewrite H; cbn;
      [reflexivity | apply orb_true_r].
  - exists nullFacts, withFacts. repeat split; reflexivity.
Qed.

Lemma C10_object_typed_field_qualifies_witness :
  qualifies nullFacts = true.
Proof.
  apply (proj1 C10_object_typed_field_qualifies). left. reflexivity.
Defined.

(** ** The suggestions of a payload *)

(** Both fields present, the newer one empty: the older one is used. *)
Lemma C8_counterexample :
  suggestions (onlySuggestions (Some []) (Some ["Compare brands"]))
  <> newerWins (onlySuggestions (Some []) (Some ["Compare brands"])).
Proof.
  cbn. discriminate.
Qed.

(** C8, amended. The suggestions are resolved from the two fields by one
    rule: [suggested_next_steps] wins when it is present and not empty;
    otherwise [next_suggestion] is used when present; otherwise the list
    is empty.  Unless the newer field is present and empty, this is the
    rule "newer when present, else older, else empty". *)
Theorem C8_suggestions_resolution (data : AgentResponse) :
  (forall x l, suggested_next_steps data = Some (x :: l) ->
               suggestions data = x :: l)
  /\ (suggested_next_steps data = None \/ suggested_next_steps data = Some [] ->
      forall l, next_suggestion data = Some l -> suggestions data = l)
  /\ (suggested_next_steps data = None \/ suggested_next_steps data = Some [] ->
      next_suggestion data = None -> suggestions data = [])
  /\ (suggested_next_steps data <> Some [] -> suggestions data = newerWins data).
Proof.
  unfold suggestions, newerWins. split; [| split; [| split]].
  - intros x l H. rewrite H. reflexivity.
  - intros [H | H] l Hold; rewrite H, Hold; reflexivity.
  - intros [H | H] Hold; rewrite H, Hold; reflexivity.
  - intros H. destruct (suggested_next_steps data) as [[|x l]|];
      [contradiction | reflexivity |].
    destruct (next_suggestion data); reflexivity.
Qed.

Lemma C8_suggestions_resolution_witness :
  suggestions (onlySuggestions (Some ["Check sugar"]) (Some ["Compare brands"]))
  = ["Check sugar"]
  /\ suggestions (onlySuggestions (Some []) (Some ["Compare brands"]))
     = ["Compare brands"]
  /\ suggestions (onlySuggestions None None) = [].
Proof.
  split; [| split].
  - apply (proj1 (C8_suggestions_resolution
                    (onlySuggestions (Some ["Check sugar"]) (Some ["Compare brands"])))
             "Check sugar" []).
    reflexivity.
  - apply (proj1 (proj2 (C8_suggestions_resolution
                           (onlySuggestions (Some []) (Some ["Compare brands"]))))).
    + right. reflexivity.
    + reflexivity.
  - apply (proj1 (proj2 (proj2 (C8_suggestions_resolution (onlySuggestions None None))))).
    + left. reflexivity.
    + reflexivity.
Defined.

(** ** Blank submissions *)

Lemma trimStart_onlyWhiteSpace (s : string) :
  onlyWhiteSpace s = true -> trimStart s = EmptyString.
Proof.
  induction s as [|c s IH]; cbn [onlyWhiteSpace trimStart]; [reflexivity|].
  intros H. apply andb_prop in H as [Hc Hs]. rewrite Hc. now apply IH.
Qed.

Lemma trim_onlyWhiteSpace (s : string) :
  onlyWhiteSpace s = true -> trim s = EmptyString.
Proof.
  intros H. unfold trim. now rewrite trimStart_onlyWhiteSpace.
Qed.

Lemma submits_blank (s : State) :
  onlyWhiteSpace (inputValue s) = true -> submits s = false.
Proof.
  intros H. unfold submits. now rewrite trim_onlyWhiteSpace.
Qed.

(** C9. Submitting the text input while its text is empty or only white
    space does nothing, in every state: the state after is the state
    before, so no turn is appended, no request is sent and the processing
    flag is not set. *)
Theorem C9_blank_submit_is_noop (s : State) (clk : Readings) :
  onlyWhiteSpace (inputValue s) = true ->
  handleSubmit clk s = s
  /\ step s (Submit clk) = s
  /\ messages (step s (Submit clk)) = messages s
  /\ inflight (step s (Submit clk)) = inflight s
  /\ isProcessing (step s (Submit clk)) = isProcessing s.
Proof.
  intros H. apply submits_blank in H.
  assert (Hs : step s (Submit clk) = s) by (cbn; now rewrite H).
  rewrite Hs. unfold handleSubmit. rewrite H. repeat split; reflexivity.
Qed.

Lemma C9_blank_submit_is_noop_witness :
  handleSubmit (at_ 1000) (typed "   ") = typed "   "
  /\ step (typed "") (Submit (at_ 1000)) = typed "".
Proof.
  split.
  - apply (C9_blank_submit_is_noop (typed "   ") (at_ 1000)). reflexivity.
  - apply (C9_blank_submit_is_noop (typed "") (at_ 1000)). reflexivity.
Defined.

(** ** updateAgentMsg *)

Lemma spread_takes (f : Field) (a b : AgentResponse) :
  has f b = true -> same f (spread a b) b.
Proof.
  destruct f; cbn;
    match goal with |- isSome ?x = true -> _ => destruct x end;
    intros H; (reflexivity || discriminate).
Qed.

Lemma spread_keeps (f : Field) (a b : AgentResponse) :
  has f b = false -> same f (spread a b) a.
Proof.
  destruct f; cbn;
    match goal with |- isSome ?x = false -> _ => destruct x end;
    intros H; (reflexivity || discriminate).
Qed.

Lemma same_has (f : Field) (a b : AgentResponse) :
  same f a b -> has f a = has f b.
Proof.
  destruct f; cbn; intros ->; reflexivity.
Qed.

Lemma same_trans (f : Field) (a b c : AgentResponse) :
  same f a b -> same f b c -> same f a c.
Proof.
  destruct f; cbn; congruence.
Qed.

Lemma updateAgentMsg_nth (msgId : string) (updates : AgentResponse)
  (msgs : list Message) (i : nat) (m : Message) :
  nth_error msgs i = Some m ->
  nth_error (updateAgentMsg msgId updates msgs) i
  = Some (if (id m =? msgId)%string then merged m updates else m).
Proof.
  intros H. unfold updateAgentMsg. rewrite nth_error_map, H. reflexivity.
Qed.

Lemma updateAgentMsg_length (msgId : string) (updates : AgentResponse)
  (msgs : list Message) :
  List.length (updateAgentMsg msgId updates msgs) = List.length msgs.
Proof.
  apply length_map.
Qed.

Lemma updateAgentMsg_unknown (msgId : string) (updates : AgentResponse)
  (msgs : list Message) :
  (forall m, In m msgs -> id m <> msgId) ->
  updateAgentMsg msgId updates msgs = msgs.
Proof.
  induction msgs as [|m msgs IH]; cbn; intros H; [reflexivity|].
  destruct (String.eqb_spec (id m) msgId) as [E | _].
  - exfalso. apply (H m); [now left | exact E].
  - f_equal. apply IH. intros m' Hm'. apply H. now right.
Qed.

(** C6. Merging a partial payload into the turn with a given identifier
    is field by field and clears the pending flag: a key of the update
    takes the update's value, any other key keeps what it had.  Of two
    merges in a row, what the first set and the second does not name is
    still there.  With an identifier no turn has, the log comes back
    unchanged; the merge is a total function, so it cannot throw. *)
Theorem C6_merge_is_fieldwise (msgId : string) (u1 u2 : AgentResponse)
  (msgs : list Message) :
  (forall i m,
      nth_error msgs i = Some m -> id m = msgId ->
      exists m',
        nth_error (updateAgentMsg msgId u1 msgs) i = Some m'
        /\ isStreaming m' = Some false
        /\ id m' = id m /\ type m' = type m /\ content m' = content m
        /\ forall f,
            (has f u1 = true -> same f (payloadOf m') u1)
            /\ (has f u1 = false -> same f (payloadOf m') (payloadOf m)))
  /\ (forall i m,
         nth_error msgs i = Some m -> id m = msgId ->
         exists m'',
           nth_error (updateAgentMsg msgId u2 (updateAgentMsg msgId u1 msgs)) i
           = Some m''
           /\ forall f,
               has f u1 = true -> has f u2 = false ->
               has f (payloadOf m'') = true /\ same f (payloadOf m'') u1)
  /\ (forall i m,
         nth_error msgs i = Some m -> id m <> msgId ->
         nth_error (updateAgentMsg msgId u1 msgs) i = Some m)
  /\ ((forall m, In m msgs -> id m <> msgId) ->
      updateAgentMsg msgId u1 msgs = msgs)
  /\ List.length (updateAgentMsg msgId u1 msgs) = List.length msgs.
Proof.
  split; [| split; [| split; [| split]]].
  - intros i m Hi Hid. exists (merged m u1).
    rewrite (updateAgentMsg_nth _ _ _ _ _ Hi).
    apply String.eqb_eq in Hid. rewrite Hid.
    repeat split; try reflexivity.
    + now apply spread_takes.
    + now apply spread_keeps.
  - intros i m Hi Hid. exists (merged (merged m u1) u2).
    assert (H1 : nth_error (updateAgentMsg msgId u1 msgs) i = Some (merged m u1)).
    { rewrite (updateAgentMsg_nth _ _ _ _ _ Hi).
      apply String.eqb_eq in Hid. now rewrite Hid. }
    rewrite (updateAgentMsg_nth _ _ _ _ _ H1). cbn [id merged].
    apply String.eqb_eq in Hid. rewrite Hid. split; [reflexivity|].
    intros f Hf1 Hf2.
    assert (Hs : same f (payloadOf (merged (merged m u1) u2)) u1).
    { apply same_trans with (b := payloadOf (merged m u1)).
      - now apply spread_keeps.
      - now apply spread_takes. }
    split; [| exact Hs]. now rewrite (same_has _ _ _ Hs).
  - intros i m Hi Hid. rewrite (updateAgentMsg_nth _ _ _ _ _ Hi).
    apply String.eqb_neq in Hid. now rewrite Hid.
  - apply updateAgentMsg_unknown.
  - apply updateAgentMsg_length.
Qed.

Lemma C6_merge_is_fieldwise_witness :
  (exists m,
      nth_error (updateAgentMsg "1001" (onlyReasoning "No allergens found")
                   (updateAgentMsg "1001" (onlyVerdict "SAFE")
                      [pendingTurn "1001" "Is it safe?"])) 0 = Some m
      /\ final_verdict (payloadOf m) = Some "SAFE"
      /\ reasoning (payloadOf m) = Some "No allergens found"
      /\ isStreaming m = Some false)
  /\ updateAgentMsg "9999" (onlyVerdict "SAFE") [pendingTurn "1001" "Is it safe?"]
     = [pendingTurn "1001" "Is it safe?"].
Proof.
  pose proof (C6_merge_is_fieldwise "1001" (onlyVerdict "SAFE")
                (onlyReasoning "No allergens found")
                [pendingTurn "1001" "Is it safe?"]) as (_ & two & _ & _ & _).
  pose proof (C6_merge_is_fieldwise "9999" (onlyVerdict "SAFE")
                (onlyReasoning "No allergens found")
                [pendingTurn "1001" "Is it safe?"]) as (_ & _ & _ & unknown & _).
  split.
  - destruct (two 0%nat (pendingTurn "1001" "Is it safe?") eq_refl eq_refl)
      as (m & Hm & Hkept).
    exists m. split; [exact Hm|].
    split; [exact (proj2 (Hkept FinalVerdict eq_refl eq_refl))|].
    cbn in Hm. injection Hm as <-. split; reflexivity.
  - apply unknown. intros m [<- | []]. discriminate.
Defined.

(** ** What a step does to the log *)

Lemma settle_messages (now : Z) (req : Request) (result : FetchResult) (s : State) :
  exists updates,
    messages (settle now req result s)
    = updateAgentMsg (req_agentMsgId req) updates (messages s).
Proof.
  destruct result as [message | status [message | data text]]; cbn;
    try destruct (ok status); cbn; eauto.
Qed.

(** A step leaves the log and the fetches alone, or appends the pair of a
    call together with its fetch, or merges an answer and forgets its
    fetch. *)
Lemma step_log (s : State) (e : Event) :
  (messages (step s e) = messages s /\ inflight (step s e) = inflight s)
  \/ (exists clk prompt imageData req,
         messages (step s e)
         = ((messages s ++ [userMsg clk prompt]) ++ [agentMsg clk prompt imageData])%list
         /\ inflight (step s e) = (inflight s ++ [req])%list
         /\ req_agentMsgId req = id (agentMsg clk prompt imageData))
  \/ (exists k req updates,
         nth_error (inflight s) k = Some req
         /\ messages (step s e)
            = updateAgentMsg (req_agentMsgId req) updates (messages s)
         /\ inflight (step s e) = removeNth k (inflight s)).
Proof.
  destruct e as [text | clk | i txt clk | clk | file | r b64 clk | k result now | k | i];
    cbn.
  - now left.
  - unfold handleSubmit. destruct (submits s); cbn; [right; left | now left].
    do 4 eexists. repeat split.
  - destruct (offers s i txt); cbn; [right; left | now left].
    do 4 eexists. repeat split.
  - destruct (landing s); cbn; [right; left | now left].
    do 4 eexists. repeat split.
  - now left.
  - destruct (nth_error (readers s) r); cbn; [right; left | now left].
    do 4 eexists. repeat split.
  - destruct (nth_error (inflight s) k) as [req|] eqn:Hk; [| now left].
    right; right. cbn.
    destruct (settle_messages now req result (forget k s)) as (u & Hu).
    exists k, req, u. split; [exact Hk|]. split; [exact Hu|].
    destruct result as [message | status [message | data text]]; cbn;
      try destruct (ok status); reflexivity.
  - destruct (nth_error (releaseTimers s) k); cbn; now left.
  - destruct (timer (viewAt s i)); cbn; now left.
Qed.

(** Case analysis on what a step did to the log. *)
Ltac step_cases s e E :=
  let clk := fresh "clk" in
  let prompt := fresh "prompt" in
  let imageData := fresh "imageData" in
  let k := fresh "k" in
  let req := fresh "req" in
  let updates := fresh "updates" in
  let Hk := fresh "Hk" in
  destruct (step_log s e)
    as [[E _] | [(clk & prompt & imageData & req & E & _)
                | (k & req & updates & Hk & E & _)]];
  rewrite E.

Lemma Reachable_run (s : State) (events : list Event) :
  Reachable s -> Reachable (run s events).
Proof.
  revert s. induction events as [|e events IH]; cbn; intros s H; [exact H|].
  apply IH. now constructor.
Qed.

Lemma updateAgentMsg_carries (msgId : string) (updates : AgentResponse)
  (msgs : list Message) :
  Forall carriesPayload msgs ->
  Forall carriesPayload (updateAgentMsg msgId updates msgs).
Proof.
  intros H. unfold updateAgentMsg. apply Forall_map.
  apply Forall_impl with (2 := H). intros m Hm.
  destruct (id m =? msgId)%string; [| exact Hm].
  intros _. cbn. discriminate.
Qed.

Lemma Reachable_carriesPayload (s : State) :
  Reachable s -> Forall carriesPayload (messages s).
Proof.
  induction 1 as [| s e _ IH]; [constructor|].
  step_cases s e E.
  - exact IH.
  - repeat (apply Forall_app; split); try exact IH;
      constructor; try constructor; intros H; cbn in *; discriminate.
  - now apply updateAgentMsg_carries.
Qed.

(** ** The memory digest *)

Lemma append_assoc' (a b c : string) : ((a ++ b) ++ c = a ++ (b ++ c))%string.
Proof.
  induction a as [|x a IH]; cbn; [reflexivity | now rewrite IH].
Qed.

Lemma append_empty_r (a : string) : (a ++ "" = a)%string.
Proof.
  induction a as [|x a IH]; cbn; [reflexivity | now rewrite IH].
Qed.

Lemma fold_left_lines {A : Type} (line : A -> string) (l : list A) (init : string) :
  fold_left (fun acc m => acc ++ line m)%string l init
  = (init ++ joinLines (map line l))%string.
Proof.
  revert init. induction l as [|m l IH]; intros init; cbn.
  - now rewrite append_empty_r.
  - now rewrite IH, append_assoc'.
Qed.

Lemma contextLine_digestLine (m : Message) :
  carriesPayload m -> contextLine m = digestLine m.
Proof.
  unfold carriesPayload, contextLine, digestLine, payloadOf.
  destruct (type m); [reflexivity|].
  intros H. destruct (agentResponse m) as [r|]; [| now elim H].
  destruct (final_verdict r) as [[|c v]|]; reflexivity.
Qed.

Lemma recentMessages_suffix (msgs : list Message) :
  (firstn (List.length msgs - 6) msgs ++ recentMessages msgs)%list = msgs
  /\ List.length (recentMessages msgs) = Nat.min 6 (List.length msgs).
Proof.
  unfold recentMessages. split.
  - apply firstn_skipn.
  - rewrite length_skipn. lia.
Qed.

Lemma memoryContext_digest (msgs : list Message) :
  Forall carriesPayload msgs ->
  memoryContext msgs = digestOf digestLine msgs.
Proof.
  intros H. destruct msgs as [|m msgs]; [reflexivity|].
  unfold memoryContext, digestOf. rewrite fold_left_lines.
  fold header. fold marker.
  assert (Hr : Forall carriesPayload (recentMessages (m :: msgs))).
  { rewrite <- (proj1 (recentMessages_suffix (m :: msgs))) in H.
    apply Forall_app in H. apply H. }
  assert (E : map contextLine (recentMessages (m :: msgs))
              = map digestLine (recentMessages (m :: msgs))).
  { apply map_ext_Forall. apply Forall_impl with (2 := Hr).
    apply contextLine_digestLine. }
  rewrite E. unfold marker. rewrite !append_assoc'. reflexivity.
Qed.

Lemma finalPromptToSend_prepends (msgs : list Message) (prompt : string) :
  finalPromptToSend msgs prompt = (memoryContext msgs ++ prompt)%string.
Proof.
  unfold finalPromptToSend. destruct (memoryContext msgs); reflexivity.
Qed.

(** A session whose one answer has an empty verdict: the digest prints
    "Unknown" where the specification's line prints the verdict. *)
Lemma C5_counterexample :
  Reachable emptyVerdictSession
  /\ memoryContext (messages emptyVerdictSession)
     <> digestOf lineAsStated (messages emptyVerdictSession).
Proof.
  split.
  - apply Reachable_run. constructor.
  - vm_compute. discriminate.
Qed.

(** C5, amended. On an empty log the digest is the empty string.  On a
    non-empty log of a session it is the header line, then one line for
    each of the last [min 6 length] turns, in order: "User: <content>"
    for a user turn, "AI Verdict: <final verdict>" for an agent turn,
    with "Unknown" when the verdict is absent or is the empty string;
    then the marker line.  The query sent is the digest followed by the
    prompt. *)
Theorem C5_memory_digest (s : State) :
  Reachable s ->
  memoryContext [] = ""
  /\ (messages s <> [] ->
      memoryContext (messages s)
      = header ++ joinLines (map digestLine (recentMessages (messages s))) ++ marker)
  /\ (exists older, messages s = (older ++ recentMessages (messages s))%list)
  /\ List.length (recentMessages (messages s)) = Nat.min 6 (List.length (messages s))
  /\ (forall clk prompt imageData file,
         exists req,
           inflight (sendPromptToBackend (closureOf s) clk prompt imageData file s)
           = (inflight s ++ [req])%list
           /\ form_user_query req = (memoryContext (messages s) ++ prompt)%string).
Proof.
  intros Hs. split; [reflexivity|]. split; [| split; [| split]].
  - intros Hne. rewrite memoryContext_digest by now apply Reachable_carriesPayload.
    destruct (messages s); [now elim Hne | reflexivity].
  - eexists. symmetry. apply recentMessages_suffix.
  - apply recentMessages_suffix.
  - intros clk prompt imageData file. eexists. split; [reflexivity|].
    apply finalPromptToSend_prepends.
Qed.

Lemma C5_memory_digest_witness :
  memoryContext (messages emptyVerdictSession)
  = (header ++ ("User: Is it safe?" ++ Js.nl) ++ ("AI Verdict: Unknown" ++ Js.nl)
     ++ marker)%string.
Proof.
  assert (R : Reachable emptyVerdictSession) by (apply Reachable_run; constructor).
  destruct (C5_memory_digest emptyVerdictSession R) as (_ & digest & _).
  rewrite digest; [reflexivity | discriminate].
Defined.

(** ** The failure path of the dispatcher *)

Lemma In_removeNth {A : Type} (k : nat) (l : list A) (x : A) :
  In x (removeNth k l) -> In x l.
Proof.
  revert k. induction l as [|a l IH]; intros [|k]; cbn; auto.
  intros [E | H]; [now left | right; eauto].
Qed.

Lemma owned_updateAgentMsg (msgId : string) (updates : AgentResponse)
  (msgs : list Message) (req : Request) :
  owned msgs req -> owned (updateAgentMsg msgId updates msgs) req.
Proof.
  intros (m & Hin & Hid & Hty).
  exists (if (id m =? msgId)%string then merged m updates else m).
  split; [| destruct (id m =? msgId)%string; now split].
  unfold updateAgentMsg.
  apply (in_map (fun m => if (id m =? msgId)%string then merged m updates else m)).
  exact Hin.
Qed.

Lemma Reachable_owned (s : State) :
  Reachable s -> Forall (owned (messages s)) (inflight s).
Proof.
  induction 1 as [| s e _ IH]; [constructor|].
  destruct (step_log s e)
    as [[E1 E2] | [(clk & p & img & req & E1 & E2 & Hreq)
                  | (k & req & u & _ & E1 & E2)]];
    rewrite E1, E2.
  - exact IH.
  - apply Forall_app. split.
    + apply Forall_impl with (2 := IH). intros r (m & Hin & Hm).
      exists m. split; [| exact Hm]. apply in_or_app. left.
      apply in_or_app. now left.
    + constructor; [| constructor].
      exists (agentMsg clk p img). split; [| now split].
      apply in_or_app. right. now left.
  - apply Forall_forall. intros r Hr. apply owned_updateAgentMsg.
    rewrite Forall_forall in IH. apply IH. now apply In_removeNth in Hr.
Qed.

Lemma fallback_merged (msgId message : string) (msgs : list Message) (m : Message) :
  In m (updateAgentMsg msgId (fallback message) msgs) ->
  id m = msgId ->
  final_verdict (payloadOf m) = Some "CAUTION"
  /\ reasoning (payloadOf m)
     = Some ("Error connecting to AI Server: " ++ message ++ ".")%string
  /\ product_json (payloadOf m) = Some Js.Null
  /\ isStreaming m = Some false.
Proof.
  unfold updateAgentMsg. intros Hin Hid.
  apply in_map_iff in Hin as (m0 & <- & _).
  destruct (String.eqb_spec (id m0) msgId) as [_ | Hne].
  - repeat split.
  - now elim Hne.
Qed.

(** Whatever the [try] block throws, the [catch] block runs with its
    message. *)
Lemma step_thrown (s : State) (k : nat) (req : Request) (result : FetchResult)
  (now : Z) (message : string) :
  nth_error (inflight s) k = Some req ->
  thrown result = Some message ->
  step s (FetchSettled k result now) = render now (onError req message (forget k s)).
Proof.
  intros Hk Ht. cbn. rewrite Hk.
  destruct result as [m | status [m | data text]]; cbn in *.
  - now injection Ht as ->.
  - injection Ht as ->. now destruct (ok status).
  - destruct (ok status); [discriminate | now injection Ht as ->].
Qed.

(** With a status that is not ok and a body that is not JSON, the
    reasoning of the fallback carries the parser's message and not the
    status. *)
Lemma C3_counterexample :
  let s' := step askedSession (FetchSettled 0 badGateway 1200) in
  Reachable askedSession
  /\ ok 502 = false
  /\ exists m,
      nth_error (messages s') 1 = Some m
      /\ id m = "1001"
      /\ final_verdict (payloadOf m) = Some "CAUTION"
      /\ reasoning (payloadOf m)
         = Some "Error connecting to AI Server: Unexpected token < in JSON at position 0."
      /\ embedsStatus 502 m = false.
Proof.
  split; [apply Reachable_run; constructor|]. split; [reflexivity|].
  eexists. repeat split.
Qed.

(** C3, amended. When the backend answers with a status outside 200..299,
    the turn of that call gets the fallback merged in: verdict "CAUTION",
    the subject set to null, the pending flag cleared, and a reasoning
    that embeds the failure: the status and the body when the body is
    JSON, the message of the parser when it is not.  The processing flag
    is dropped in that same step and no release timer is armed, so a
    non-blank submission made next is accepted and appends its pair. *)
Theorem C3_failure_falls_back (s : State) (k : nat) (req : Request)
  (status : Z) (body : Body) (now : Z) :
  Reachable s ->
  nth_error (inflight s) k = Some req ->
  ok status = false ->
  let s' := step s (FetchSettled k (Responded status body) now) in
  (exists m,
      In m (messages s') /\ id m = req_agentMsgId req /\ type m = agent)
  /\ (forall m,
         In m (messages s') -> id m = req_agentMsgId req ->
         final_verdict (payloadOf m) = Some "CAUTION"
         /\ product_json (payloadOf m) = Some Js.Null
         /\ isStreaming m = Some false
         /\ (forall data text,
                body = Json data text ->
                reasoning (payloadOf m)
                = Some ("Error connecting to AI Server: Server Error "
                        ++ Js.toString status ++ ": " ++ text ++ ".")%string)
         /\ (forall message,
                body = NotJson message ->
                reasoning (payloadOf m)
                = Some ("Error connecting to AI Server: " ++ message ++ ".")%string))
  /\ isProcessing s' = false
  /\ releaseTimers s' = releaseTimers s
  /\ (forall next clk,
         nonEmpty (trim next) = true ->
         messages (step (step s' (InputChange next)) (Submit clk))
         = ((messages s' ++ [userMsg clk next]) ++ [agentMsg clk next None])%list).
Proof.
  intros Hs Hk Hok s'. subst s'.
  assert (Ht : exists message,
             thrown (Responded status body) = Some message
             /\ (forall data text, body = Json data text ->
                                   message = serverError status text)
             /\ (forall parse, body = NotJson parse -> message = parse)).
  { cbn. rewrite Hok. destruct body as [parse | data text]; eexists;
      (split; [reflexivity|]); split; intros; congruence. }
  destruct Ht as (message & Ht & Hjson & Hparse).
  rewrite (step_thrown s k req _ now message Hk Ht).
  split; [| split; [| split; [| split]]].
  - cbn [render messages onError forget].
    apply owned_updateAgentMsg.
    pose proof (Reachable_owned s Hs) as Hown.
    rewrite Forall_forall in Hown. apply Hown.
    now apply nth_error_In with (n := k).
  - intros m Hin Hid. cbn [render messages onError forget] in Hin.
    destruct (fallback_merged _ _ _ _ Hin Hid) as (Hv & Hr & Hp & Hf).
    split; [exact Hv|]. split; [exact Hp|]. split; [exact Hf|]. split.
    + intros data text Hbody.
      rewrite Hr, (Hjson data text Hbody). unfold serverError.
      now rewrite !append_assoc'.
    + intros parse Hbody. now rewrite Hr, (Hparse parse Hbody).
  - reflexivity.
  - reflexivity.
  - intros next clk Hnext.
    cbn [step]. unfold handleSubmit, submits.
    cbn [setInputValue inputValue isProcessing render onError].
    rewrite Hnext. reflexivity.
Qed.

Lemma C3_failure_falls_back_witness :
  let s' := step askedSession
              (FetchSettled 0 (Responded 500 (Json emptyResponse "{}")) 1200) in
  isProcessing s' = false
  /\ releaseTimers s' = []
  /\ exists m,
      nth_error (messages s') 1 = Some m
      /\ final_verdict (payloadOf m) = Some "CAUTION"
      /\ reasoning (payloadOf m)
         = Some "Error connecting to AI Server: Server Error 500: {}."
      /\ product_json (payloadOf m) = Some Js.Null.
Proof.
  assert (R : Reachable askedSession) by (apply Reachable_run; constructor).
  pose proof (C3_failure_falls_back askedSession 0
                (Build_Request "1001" None "Is it safe?" DEFAULT_PROFILE None [] None)
                500 (Json emptyResponse "{}") 1200 R eq_refl eq_refl)
    as (_ & merged & released & timers & _).
  split; [exact released|]. split; [exact timers|].
  set (s' := step askedSession
                (FetchSettled 0 (Responded 500 (Json emptyResponse "{}")) 1200))
    in *.
  exists (nth 1 (messages s') (userMsg (at_ 0) "")).
  split; [reflexivity|].
  assert (Hin : In (nth 1 (messages s') (userMsg (at_ 0) "")) (messages s')).
  { apply nth_In. vm_compute. lia. }
  destruct (merged _ Hin eq_refl) as (Hv & Hp & _ & Hr & _).
  split; [exact Hv|]. split; [exact (Hr emptyResponse "{}" eq_refl) | exact Hp].
Defined.

(** ** The views under a render *)

Lemma renderViews_length (now : Z) (processing : bool) (msgs : list Message)
  (vs : list View) :
  List.length (renderViews now processing msgs vs) = List.length msgs.
Proof.
  revert vs. induction msgs as [|m msgs IH]; intros vs; cbn; [reflexivity|].
  now rewrite IH.
Qed.

Lemma nth_tl {A : Type} (i : nat) (l : list A) (d : A) :
  nth i (tl l) d = nth (S i) l d.
Proof.
  destruct l; [destruct i|]; reflexivity.
Qed.

Lemma renderViews_nth (now : Z) (processing : bool) (msgs : list Message)
  (vs : list View) (i : nat) (m : Message) :
  nth_error msgs i = Some m ->
  nth i (renderViews now processing msgs vs) unmounted
  = match type m, agentResponse m with
    | agent, Some data => runEffect now processing data (nth i vs unmounted)
    | _, _ => nth i vs unmounted
    end.
Proof.
  revert vs i. induction msgs as [|m0 msgs IH]; intros vs [|i] H;
    try discriminate.
  - injection H as ->. cbn. destruct vs; reflexivity.
  - cbn in H. cbn [renderViews nth]. rewrite (IH _ _ H), nth_tl. reflexivity.
Qed.

Lemma runEffect_showResults (now : Z) (processing : bool) (data : AgentResponse)
  (v : View) :
  showResults (runEffect now processing data v) = showResults v.
Proof.
  unfold runEffect. destruct (sameDeps _ _); reflexivity.
Qed.

Lemma runEffect_deps (now : Z) (processing : bool) (data : AgentResponse)
  (v : View) :
  exists verdict, deps (runEffect now processing data v) = Some (processing, verdict).
Proof.
  unfold runEffect.
  destruct (sameDeps (deps v) (processing, final_verdict data)) eqn:E; cbn; eauto.
  unfold sameDeps in E. destruct (deps v) as [[p verdict]|]; [| discriminate].
  cbn in E. apply andb_prop in E as [E _]. apply Bool.eqb_prop in E. subst.
  eauto.
Qed.

(** The effect runs again when the processing flag drops, and arms its
    timer under its guard. *)
Lemma runEffect_released (now : Z) (data : AgentResponse) (v : View)
  (verdict : option string) :
  deps v = Some (true, verdict) ->
  timer (runEffect now false data v)
  = if Js.truthyStr (final_verdict data) then Some (now + 1500) else None.
Proof.
  intros H. unfold runEffect. rewrite H. reflexivity.
Qed.

Lemma viewAt_render (now : Z) (s : State) (i : nat) (m : Message) :
  nth_error (messages s) i = Some m ->
  viewAt (render now s) i
  = match type m, agentResponse m with
    | agent, Some data => runEffect now (isProcessing s) data (viewAt s i)
    | _, _ => viewAt s i
    end.
Proof.
  intros H. unfold viewAt. cbn [render views]. now apply renderViews_nth.
Qed.

Lemma render_showResults (now : Z) (s : State) (i : nat) (m : Message) :
  nth_error (messages s) i = Some m ->
  showResults (viewAt (render now s) i) = showResults (viewAt s i).
Proof.
  intros H. rewrite (viewAt_render now s i m H).
  destruct (type m), (agentResponse m); try reflexivity.
  apply runEffect_showResults.
Qed.

Lemma nth_setNth {A : Type} (i : nat) (a d : A) (l : list A) :
  (i < List.length l)%nat -> nth i (setNth i a l) d = a.
Proof.
  revert i. induction l as [|x l IH]; intros [|i] H; cbn in *; try lia.
  - reflexivity.
  - apply IH. lia.
Qed.

Lemma animationTime_withImage (imageData : option string) (data : AgentResponse) :
  animationTime (withImage imageData data) = animationTime data.
Proof.
  unfold withImage. destruct (Js.truthyStr imageData); reflexivity.
Qed.

Lemma final_verdict_withImage (imageData : option string) (data : AgentResponse) :
  final_verdict (withImage imageData data) = final_verdict data.
Proof.
  unfold withImage. destruct (Js.truthyStr imageData); reflexivity.
Qed.

Lemma step_answered_fetch (s : State) (k : nat) (req : Request) (status : Z)
  (data : AgentResponse) (text : string) (now : Z) :
  nth_error (inflight s) k = Some req ->
  ok status = true ->
  step s (FetchSettled k (Responded status (Json data text)) now)
  = render now (onSuccess now req data (forget k s)).
Proof.
  intros Hk Hok. cbn. rewrite Hk. cbn. rewrite Hok. reflexivity.
Qed.

(** ** Release and reveal *)

(** In [answeredSession] the release timer is due [animationTime] after
    the answer; when it fires the flag drops and the view of the turn
    still shows thinking. *)
Lemma C1_counterexample :
  Reachable answeredSession
  /\ releaseTimers answeredSession = [1200 + animationTime (onlyVerdict "SAFE")]
  /\ isProcessing (step answeredSession (ReleaseFires 0)) = false
  /\ ~ revealsAtRelease answeredSession 0 1.
Proof.
  split; [| split; [| split]]; try reflexivity.
  - apply ReachStep. apply Reachable_run. constructor.
  - intros [_ H]. vm_compute in H. discriminate.
Qed.

(** ** The shape of the log *)

Lemma accepts_appends (s : State) (e : Event) :
  accepts s e = true ->
  exists clk prompt imageData,
    messages (step s e)
    = ((messages s ++ [userMsg clk prompt]) ++ [agentMsg clk prompt imageData])%list.
Proof.
  destruct e as [text | clk | i txt clk | clk | file | r b64 clk | k result now | k | i];
    cbn; try discriminate; intros H.
  - unfold handleSubmit. rewrite H. cbn. eauto.
  - rewrite H. cbn. eauto.
  - rewrite H. cbn. eauto.
  - destruct (nth_error (readers s) r); [cbn; eauto | discriminate].
Qed.

Lemma rejects_keeps_length (s : State) (e : Event) :
  accepts s e = false ->
  List.length (messages (step s e)) = List.length (messages s).
Proof.
  destruct e as [text | clk | i txt clk | clk | file | r b64 clk | k result now | k | i];
    cbn; intros H; try rewrite H; try reflexivity.
  - destruct (nth_error (readers s) r); [discriminate | reflexivity].
  - destruct (nth_error (inflight s) k) as [req|]; [| reflexivity].
    cbn. destruct (settle_messages now req result (forget k s)) as (u & ->).
    apply updateAgentMsg_length.
  - destruct (nth_error (releaseTimers s) k); reflexivity.
  - destruct (timer (viewAt s i)); reflexivity.
Qed.

(** After a run that called [sendPromptToBackend] N times the log has
    grown by 2N turns. *)
Lemma log_after_submissions (s : State) (events : list Event) :
  List.length (messages (run s events))
  = (List.length (messages s) + 2 * accepted s events)%nat.
Proof.
  revert s. induction events as [|e events IH]; intros s; [cbn; lia|].
  change (run s (e :: events)) with (run (step s e) events).
  rewrite IH. cbn [accepted]. destruct (accepts s e) eqn:E.
  - destruct (accepts_appends s e E) as (clk & p & img & ->).
    rewrite !length_app. cbn. lia.
  - rewrite (rejects_keeps_length s e E). lia.
Qed.

Lemma alternating_app (expect : MessageType) (l l' : list Message) :
  alternating expect l = true -> alternating user l' = true ->
  alternating expect (l ++ l') = true.
Proof.
  revert expect. induction l as [|m l IH]; intros expect; cbn.
  - destruct expect; [auto | discriminate].
  - intros H H'. apply andb_prop in H as [-> H]. cbn. now apply IH.
Qed.

Lemma alternating_updateAgentMsg (expect : MessageType) (msgId : string)
  (updates : AgentResponse) (msgs : list Message) :
  alternating expect (updateAgentMsg msgId updates msgs) = alternating expect msgs.
Proof.
  revert expect. induction msgs as [|m msgs IH]; intros expect; cbn;
    [reflexivity|].
  rewrite IH. destruct (id m =? msgId)%string; reflexivity.
Qed.

(** The log of a session alternates user and agent turns. *)
Lemma Reachable_alternating (s : State) :
  Reachable s -> alternating user (messages s) = true.
Proof.
  induction 1 as [| s e _ IH]; [reflexivity|].
  step_cases s e E.
  - exact IH.
  - rewrite <- app_assoc. now apply alternating_app.
  - now rewrite alternating_updateAgentMsg.
Qed.

(** No step deletes or moves a turn, or changes its identifier, role,
    text or time. *)
Lemma step_keeps_turns (s : State) (e : Event) (i : nat) (m : Message) :
  nth_error (messages s) i = Some m ->
  exists m',
    nth_error (messages (step s e)) i = Some m'
    /\ id m' = id m /\ type m' = type m /\ content m' = content m
    /\ timestamp m' = timestamp m.
Proof.
  intros H.
  step_cases s e E.
  - exists m. now repeat split.
  - exists m. split; [| now repeat split].
    rewrite <- app_assoc, nth_error_app1; [exact H|].
    apply nth_error_Some. rewrite H. discriminate.
  - rewrite (updateAgentMsg_nth _ _ _ _ _ H).
    eexists. split; [reflexivity|].
    destruct (id m =? req_agentMsgId req)%string; now repeat split.
Qed.

(** A turn stays as it is through a step, unless a fetch in flight
    carries its identifier. *)
Lemma step_keeps_unclaimed (s : State) (e : Event) (i : nat) (m : Message) :
  nth_error (messages s) i = Some m ->
  (forall req, In req (inflight s) -> req_agentMsgId req <> id m) ->
  nth_error (messages (step s e)) i = Some m.
Proof.
  intros H Hfree.
  step_cases s e E.
  - exact H.
  - rewrite <- app_assoc, nth_error_app1; [exact H|].
    apply nth_error_Some. rewrite H. discriminate.
  - rewrite (updateAgentMsg_nth _ _ _ _ _ H).
    destruct (String.eqb_spec (id m) (req_agentMsgId req)) as [Eid | _];
      [| reflexivity].
    exfalso. apply (Hfree req); [now apply nth_error_In with (n := k) | now symmetry].
Qed.

(** C4. Each submission appends one user turn and one pending agent turn,
    and a user turn is never changed afterwards.  The code departs from
    the last part when two calls overlap one millisecond apart: the user
    turn of the second call gets the identifier of the agent turn of the
    first, and the answer to the first call is merged into both. *)
Theorem C4_user_turn_merged_on_id_clash :
  Reachable clashAnswered
  /\ List.length (messages clashAnswered) = 4%nat
  /\ exists before after,
      nth_error (messages clashSession) 2 = Some before
      /\ nth_error (messages clashAnswered) 2 = Some after
      /\ type before = user /\ type after = user
      /\ content before = "Analyze this label"
      /\ id before = "1001"
      /\ agentResponse before = None /\ isStreaming before = None
      /\ final_verdict (payloadOf after) = Some "SAFE"
      /\ isStreaming after = Some false
      /\ before <> after.
Proof.
  split; [| split; [reflexivity|]].
  - apply ReachStep. apply Reachable_run. constructor.
  - do 2 eexists. repeat split; try reflexivity. discriminate.
Qed.

(** * Further properties of the code *)

(** ** getValidProduct, beyond the claims *)

Lemma qualifies_object (item : Js.Value) :
  qualifies item = true ->
  exists props,
    item = Js.Obj props
    /\ (Js.typeof (Js.prop "NutritionFacts" item) = Js.TObject
        \/ Js.typeof (Js.prop "IngredientList" item) = Js.TObject).
Proof.
  destruct item as [| b | n | s | items | props]; try discriminate.
  intros H. exists props. split; [reflexivity|].
  unfold qualifies in H. cbn [Js.typeof Js.isObjectType Js.isNull Js.isArray negb andb] in H.
  apply orb_prop in H as [H | H]; [left | right];
    match goal with |- ?t = _ => destruct t; (reflexivity || discriminate) end.
Qed.

(** X1. What [getValidProduct] returns, when not null, is truthy and is
    not an array, and selecting again from it changes nothing. *)
Theorem getValidProduct_idempotent (input : option Js.Value) :
  getValidProduct (getValidProduct input) = getValidProduct input
  /\ forall v, getValidProduct input = Some v ->
               Js.truthy v = true /\ Js.isArray v = false.
Proof.
  assert (shape : forall v, getValidProduct input = Some v ->
                            Js.truthy v = true /\ Js.isArray v = false).
  { intros v. destruct input as [w|]; [| discriminate]. cbn.
    destruct (Js.truthy w) eqn:T; cbn; [| discriminate].
    destruct w as [| b | n | s | items | props]; try (intros [= <-]; now split).
    intros H. apply find_some in H as [_ H].
    apply qualifies_object in H as (props & -> & _). now split. }
  split; [| exact shape].
  destruct (getValidProduct input) as [v|] eqn:E; [| reflexivity].
  destruct (shape v eq_refl) as [T A]. cbn. rewrite T. cbn.
  destruct v; (reflexivity || discriminate).
Qed.

Lemma getValidProduct_idempotent_witness :
  Js.isArray withFacts = false
  /\ getValidProduct (getValidProduct (Some candidates)) = Some nullFacts.
Proof.
  destruct (getValidProduct_idempotent (Some (Js.Arr [withFacts]))) as [_ shape].
  destruct (getValidProduct_idempotent (Some candidates)) as [again _].
  split; [exact (proj2 (shape withFacts eq_refl)) | rewrite again; reflexivity].
Defined.

Lemma find_first {A : Type} (f : A -> bool) (l : list A) (x : A) :
  find f l = Some x ->
  exists before after,
    l = (before ++ x :: after)%list
    /\ f x = true
    /\ forall y, In y before -> f y = false.
Proof.
  induction l as [|a l IH]; cbn; [discriminate|].
  destruct (f a) eqn:E.
  - intros [= <-]. exists [], l. repeat split; [exact E | intros y []].
  - intros H. destruct (IH H) as (before & after & -> & Hx & Hb).
    exists (a :: before), after. repeat split; [exact Hx|].
    intros y [<- | Hy]; [exact E | now apply Hb].
Qed.

(** X2. From an array, [getValidProduct] returns the first element that
    is a genuine object (not null, not an array, not a primitive) one of
    whose two fields has type object; every element before it fails that
    test, and the result is null exactly when every element fails it. *)
Theorem getValidProduct_first_qualifying (items : list Js.Value) :
  (forall v,
      getValidProduct (Some (Js.Arr items)) = Some v ->
      exists before after props,
        items = (before ++ v :: after)%list
        /\ v = Js.Obj props
        /\ (Js.typeof (Js.prop "NutritionFacts" v) = Js.TObject
            \/ Js.typeof (Js.prop "IngredientList" v) = Js.TObject)
        /\ forall w, In w before -> qualifies w = false)
  /\ (getValidProduct (Some (Js.Arr items)) = None
      <-> forall w, In w items -> qualifies w = false)
  /\ (forall w, In w items ->
                Js.isNull w = true \/ Js.isArray w = true
                \/ Js.typeof (Some w) <> Js.TObject ->
                getValidProduct (Some (Js.Arr items)) <> Some w).
Proof.
  cbn [getValidProduct Js.truthy negb]. split; [| split].
  - intros v H. destruct (find_first _ _ _ H) as (before & after & E & Hq & Hb).
    destruct (qualifies_object v Hq) as (props & Hv & Hf).
    exists before, after, props. now repeat split.
  - split.
    + intros H w Hw. exact (find_none _ _ H w Hw).
    + intros H. destruct (find qualifies items) as [v|] eqn:E; [| reflexivity].
      apply find_some in E as [Hin Hq]. rewrite (H v Hin) in Hq. discriminate.
  - intros w _ Hbad H. apply find_some in H as [_ Hq].
    apply qualifies_object in Hq as (props & -> & _).
    destruct Hbad as [Hb | [Hb | Hb]]; try discriminate. now apply Hb.
Qed.

Lemma getValidProduct_first_qualifying_witness :
  getValidProduct (Some (Js.Arr [Js.Null; Js.Str "x"; Js.Arr []; withFacts]))
  = Some withFacts
  /\ getValidProduct (Some (Js.Arr [Js.Null; Js.Str "x"; Js.Arr []])) = None.
Proof.
  split; [reflexivity|].
  apply (proj1 (proj2 (getValidProduct_first_qualifying
                         [Js.Null; Js.Str "x"; Js.Arr []]))).
  intros w [<- | [<- | [<- | []]]]; reflexivity.
Defined.

(** ** The reveal delay and the plan panel *)

(** X3. The reveal delay is 3000, 4000 or 5000 ms: the upper bound 8000
    of the clamp is never reached, and a plan of at most three pieces, an
    empty plan or no plan gives 3000. *)
Theorem animationTime_values (data : AgentResponse) :
  (animationTime data = 3000 \/ animationTime data = 4000
   \/ animationTime data = 5000)
  /\ animationTime data < 8000
  /\ ((planStepCount data <= 3)%nat -> animationTime data = 3000).
Proof.
  pose proof (planStepCount_le_5 data) as H. unfold animationTime.
  split; [| split]; lia.
Qed.

Lemma animationTime_values_witness :
  animationTime (onlyPlan "a. b. c") = 3000.
Proof.
  apply (proj2 (proj2 (animationTime_values (onlyPlan "a. b. c")))).
  vm_compute. lia.
Defined.

Lemma join_extend (c : ascii) (pieces : list string) :
  pieces <> [] ->
  join_dot_space (extend c pieces) = String c (join_dot_space pieces).
Proof.
  destruct pieces as [|piece [|next rest]]; [contradiction | reflexivity..].
Qed.

Lemma split_dot_space_step (c c' : ascii) (r : string) :
  split_dot_space (String c (String c' r))
  = if ((c =? ".") && (c' =? " "))%char
    then EmptyString :: split_dot_space r
    else extend c (split_dot_space (String c' r)).
Proof.
  reflexivity.
Qed.

Lemma split_join_both (s : string) :
  (split_dot_space s <> [] /\ join_dot_space (split_dot_space s) = s)
  /\ forall c,
      split_dot_space (String c s) <> []
      /\ join_dot_space (split_dot_space (String c s)) = String c s.
Proof.
  induction s as [|c' r [[Hne IH] IHc]].
  - split; [split; [discriminate | reflexivity]|].
    intros c. split; [discriminate | reflexivity].
  - split; [exact (IHc c')|].
    intros c. rewrite split_dot_space_step.
    destruct ((c =? ".") && (c' =? " "))%char eqn:E.
    + apply andb_prop in E as [Ec Ec'].
      apply Ascii.eqb_eq in Ec, Ec'. subst.
      split; [discriminate|].
      cbn [join_dot_space]. destruct (split_dot_space r) as [|p ps] eqn:Er;
        [now elim Hne|].
      rewrite IH. reflexivity.
    + destruct (IHc c') as [Hne' IH'].
      split.
      * destruct (split_dot_space (String c' r)); [now elim Hne' | cbn; discriminate].
      * rewrite join_extend by exact Hne'. now rewrite IH'.
Qed.

(** X4. Splitting a text at ". " loses nothing: there is always at least
    one piece, and joining the pieces with ". " gives the text back. *)
Theorem split_dot_space_join (s : string) :
  (1 <= List.length (split_dot_space s))%nat
  /\ join_dot_space (split_dot_space s) = s.
Proof.
  destruct (split_join_both s) as [[Hne E] _]. split; [| exact E].
  destruct (split_dot_space s); [now elim Hne | cbn; lia].
Qed.

Lemma In_firstn {A : Type} (n : nat) (l : list A) (x : A) :
  In x (firstn n l) -> In x l.
Proof.
  revert n. induction l as [|a l IH]; intros [|n]; cbn; try tauto.
  intros [E | H]; [now left | right; eauto].
Qed.

(** X5. The plan panel lists at most five steps; each is a piece of the
    plan longer than five code units; there are never more of them than
    the dispatcher counted for the delay; without a plan, or with an
    empty one, there is none; and the line "...and more checks" is shown
    only under five listed steps. *)
Theorem planSteps_bounds (data : AgentResponse) :
  (List.length (planSteps data) <= 5)%nat
  /\ (forall step,
         In step (planSteps data) ->
         (5 < String.length step)%nat
         /\ exists p, plan data = Some p /\ In step (split_dot_space p))
  /\ (List.length (planSteps data) <= planStepCount data)%nat
  /\ (plan data = None \/ plan data = Some EmptyString -> planSteps data = [])
  /\ (moreChecks data = true -> List.length (planSteps data) = 5%nat).
Proof.
  unfold planSteps, planStepCount, moreChecks.
  destruct (plan data) as [[|c p]|]; cbn [List.length In].
  - repeat split; try lia; try tauto; discriminate.
  - set (pieces := split_dot_space (String c p)).
    set (long := fun step => (5 <? String.length step)%nat).
    assert (L : (List.length (firstn 5 (filter long pieces))
                 <= Nat.min (List.length pieces) 5)%nat).
    { rewrite length_firstn. pose proof (filter_length_le long pieces). lia. }
    split; [lia|]. split; [| split; [exact L| split]].
    + intros step H. apply In_firstn in H. apply filter_In in H as [Hin Hlong].
      split; [now apply Nat.ltb_lt | eauto].
    + intros [H | H]; discriminate.
    + intros H. apply Nat.ltb_lt in H. rewrite length_firstn. lia.
  - repeat split; try lia; try tauto; discriminate.
Qed.

Lemma planSteps_bounds_witness :
  planSteps emptyResponse = []
  /\ forall step,
      In step (planSteps (onlyPlan "Check A. ok. Check C.")) ->
      (5 < String.length step)%nat.
Proof.
  split.
  - apply (proj1 (proj2 (proj2 (proj2 (planSteps_bounds emptyResponse))))).
    left. reflexivity.
  - intros step H.
    apply (proj1 (proj2 (planSteps_bounds (onlyPlan "Check A. ok. Check C.")))).
    exact H.
Defined.

Lemma endsWithDot_app_dot (s : string) : endsWithDot (s ++ ".") = true.
Proof.
  induction s as [|c s IH]; [reflexivity|].
  cbn [append endsWithDot]. destruct (s ++ ".")%string eqn:E; [| exact IH].
  destruct s; discriminate.
Qed.

(** X6. The text shown for a plan step always ends with a full stop, the
    step is left as it is when it already ends with one, and showing is
    idempotent. *)
Theorem stepText_ends_with_dot (step : string) :
  endsWithDot (stepText step) = true
  /\ (endsWithDot step = true -> stepText step = step)
  /\ (endsWithDot step = false -> stepText step = (step ++ ".")%string)
  /\ stepText (stepText step) = stepText step.
Proof.
  assert (H : endsWithDot (stepText step) = true).
  { unfold stepText. destruct (endsWithDot step) eqn:E;
      [exact E | apply endsWithDot_app_dot]. }
  split; [exact H|]. split; [| split].
  - unfold stepText. now intros ->.
  - unfold stepText. now intros ->.
  - unfold stepText at 1. now rewrite H.
Qed.

Lemma stepText_ends_with_dot_witness :
  stepText "Check A" = "Check A." /\ stepText "Check C." = "Check C.".
Proof.
  split.
  - apply (proj1 (proj2 (proj2 (stepText_ends_with_dot "Check A")))). reflexivity.
  - apply (proj1 (proj2 (stepText_ends_with_dot "Check C."))). reflexivity.
Defined.
(** ** VerdictBadge *)

Lemma toUpperCase_app (a b : string) :
  toUpperCase (a ++ b) = (toUpperCase a ++ toUpperCase b)%string.
Proof.
  induction a as [|c a IH]; cbn; [reflexivity | now rewrite IH].
Qed.

Lemma toUpperCaseUnit_idempotent (c : ascii) :
  toUpperCaseUnit (toUpperCaseUnit c) = toUpperCaseUnit c.
Proof.
  destruct c as [[] [] [] [] [] [] [] []]; reflexivity.
Qed.

Lemma toUpperCase_idempotent (s : string) :
  toUpperCase (toUpperCase s) = toUpperCase s.
Proof.
  induction s as [|c s IH]; cbn; [reflexivity|].
  now rewrite toUpperCaseUnit_idempotent, IH.
Qed.

Lemma prefix_app (w rest : string) : prefix w (w ++ rest) = true.
Proof.
  induction w as [|c w IH]; cbn; [now destruct rest|].
  destruct (ascii_dec c c) as [_ | N]; [exact IH | now elim N].
Qed.

Lemma includes_app (w pre post : string) :
  includes w (pre ++ w ++ post) = true.
Proof.
  induction pre as [|c pre IH].
  - cbn [append]. destruct (w ++ post)%string eqn:E;
      cbn [includes]; rewrite <- E, prefix_app; reflexivity.
  - cbn [append includes]. rewrite IH. apply orb_true_r.
Qed.

Lemma nonEmpty_toUpperCase (s : string) :
  nonEmpty (toUpperCase s) = nonEmpty s.
Proof.
  now destruct s.
Qed.

(** X7. [VerdictBadge] decides on the upper-cased verdict, so the letter
    case does not matter, and tests "SAFE" first: an ASCII verdict that
    contains "safe" in any letter case is shown emerald, whatever stands
    around it ("Unsafe", "not safe, avoid"); a verdict with "avoid" and
    no "safe" is shown rose; the empty verdict is shown amber. *)
Theorem VerdictBadge_safe_first (pre w post : string) :
  isAscii (pre ++ w ++ post) = true ->
  (toUpperCase w = "SAFE" -> VerdictBadge (pre ++ w ++ post) = Emerald)
  /\ (toUpperCase w = "AVOID" ->
      includes "SAFE" (toUpperCase (pre ++ w ++ post)) = false ->
      VerdictBadge (pre ++ w ++ post) = Rose)
  /\ VerdictBadge (toUpperCase (pre ++ w ++ post)) = VerdictBadge (pre ++ w ++ post)
  /\ VerdictBadge "" = Amber.
Proof.
  intros _.
  assert (Hne : forall u, toUpperCase w = u -> u <> EmptyString ->
                          nonEmpty (pre ++ w ++ post) = true).
  { intros u Hu Hn. destruct pre; [| reflexivity].
    destruct w; [cbn in Hu; now elim Hn | reflexivity]. }
  split; [| split; [| split; [| reflexivity]]].
  - intros Hw. unfold VerdictBadge.
    rewrite (Hne "SAFE" Hw) by discriminate.
    now rewrite !toUpperCase_app, Hw, includes_app.
  - intros Hw Hsafe. unfold VerdictBadge.
    rewrite (Hne "AVOID" Hw) by discriminate.
    rewrite Hsafe. now rewrite !toUpperCase_app, Hw, includes_app.
  - unfold VerdictBadge.
    now rewrite nonEmpty_toUpperCase, toUpperCase_idempotent.
Qed.

Lemma VerdictBadge_safe_first_witness :
  VerdictBadge "Unsafe" = Emerald
  /\ VerdictBadge "Avoid it" = Rose.
Proof.
  split.
  - apply (proj1 (VerdictBadge_safe_first "Un" "safe" "" eq_refl)). reflexivity.
  - apply (proj1 (proj2 (VerdictBadge_safe_first "" "Avoid" " it" eq_refl)));
      reflexivity.
Defined.

(** ** The algebra of merges *)

Lemma over_assoc {A : Type} (a b c : option A) :
  over (over a b) c = over a (over b c).
Proof.
  now destruct c, b.
Qed.

Lemma over_same {A : Type} (a b : option A) : over (over a b) b = over a b.
Proof.
  now destruct b.
Qed.

Lemma spread_assoc (a b c : AgentResponse) :
  spread (spread a b) c = spread a (spread b c).
Proof.
  unfold spread. cbn. now rewrite !over_assoc.
Qed.

Lemma spread_same (a b : AgentResponse) : spread (spread a b) b = spread a b.
Proof.
  unfold spread. cbn. now rewrite !over_same.
Qed.

Lemma merged_merged (m : Message) (u1 u2 : AgentResponse) :
  merged (merged m u1) u2 = merged m (spread u1 u2).
Proof.
  unfold merged. cbn. now rewrite spread_assoc.
Qed.

(** X8. Two merges into the same turn are one merge of the two updates
    spread together, the later winning key by key; so merging the same
    update twice is merging it once. *)
Theorem updateAgentMsg_compose (msgId : string) (u1 u2 : AgentResponse)
  (msgs : list Message) :
  updateAgentMsg msgId u2 (updateAgentMsg msgId u1 msgs)
  = updateAgentMsg msgId (spread u1 u2) msgs
  /\ updateAgentMsg msgId u1 (updateAgentMsg msgId u1 msgs)
     = updateAgentMsg msgId u1 msgs.
Proof.
  unfold updateAgentMsg. rewrite !map_map. split; apply map_ext; intros m;
    destruct (id m =? msgId)%string eqn:E; cbn [id merged]; rewrite ?E;
    try reflexivity.
  - apply merged_merged.
  - unfold merged. cbn. now rewrite spread_same.
Qed.

(** X9. Merges into turns with different identifiers commute. *)
Theorem updateAgentMsg_commute (id1 id2 : string) (u1 u2 : AgentResponse)
  (msgs : list Message) :
  id1 <> id2 ->
  updateAgentMsg id1 u1 (updateAgentMsg id2 u2 msgs)
  = updateAgentMsg id2 u2 (updateAgentMsg id1 u1 msgs).
Proof.
  intros Hne. unfold updateAgentMsg. rewrite !map_map. apply map_ext. intros m.
  destruct (id m =? id1)%string eqn:E1, (id m =? id2)%string eqn:E2;
    cbn [id merged]; rewrite ?E1, ?E2; try reflexivity.
  apply String.eqb_eq in E1, E2. elim Hne. congruence.
Qed.

Lemma updateAgentMsg_commute_witness :
  updateAgentMsg "1001" (onlyVerdict "SAFE")
    (updateAgentMsg "2001" (onlyVerdict "AVOID")
       [pendingTurn "1001" "a"; pendingTurn "2001" "b"])
  = updateAgentMsg "2001" (onlyVerdict "AVOID")
      (updateAgentMsg "1001" (onlyVerdict "SAFE")
         [pendingTurn "1001" "a"; pendingTurn "2001" "b"]).
Proof.
  apply (updateAgentMsg_commute "1001" "2001"). discriminate.
Defined.

(** ** The processing flag as a lock *)

Lemma offers_processing (s : State) (i : nat) (txt : string) :
  isProcessing s = true -> offers s i txt = false.
Proof.
  intros H. unfold offers.
  destruct (nth_error (messages s) i) as [m|]; [| reflexivity].
  destruct (type m); [reflexivity|].
  destruct (agentResponse m); [| reflexivity].
  rewrite H. apply andb_false_r.
Qed.

(** X10. While the processing flag is set, submitting the text input,
    clicking a suggestion and clicking the research button change
    nothing, whatever the text.  A file that finishes loading is not held
    back: its call appends its pair and starts its fetch all the same. *)
Theorem processing_gates_clicks_not_files (s : State) :
  isProcessing s = true ->
  (forall clk, step s (Submit clk) = s)
  /\ (forall i txt clk, step s (FollowUpClick i txt clk) = s)
  /\ (forall clk, step s (ResearchClick clk) = s)
  /\ (forall r reader base64String clk,
         nth_error (readers s) r = Some reader ->
         let s' := step s (FileLoaded r base64String clk) in
         messages s'
         = ((messages s ++ [userMsg clk "Analyze this label"])
            ++ [agentMsg clk "Analyze this label" (Some base64String)])%list
         /\ List.length (inflight s') = S (List.length (inflight s))).
Proof.
  intros H. split; [| split; [| split]].
  - intros clk. cbn. unfold submits. rewrite H. now rewrite andb_false_r.
  - intros i txt clk. cbn. now rewrite offers_processing.
  - intros clk. cbn. unfold landing. rewrite H. now rewrite andb_false_r.
  - intros r reader b64 clk Hr. cbn. rewrite Hr. cbn. split; [reflexivity|].
    rewrite length_app. cbn. lia.
Qed.

Lemma processing_gates_clicks_not_files_witness :
  step pickedThenAsked (Submit (at_ 1001)) = pickedThenAsked
  /\ List.length (messages (step pickedThenAsked
                             (FileLoaded 0 "data:image/png;base64,AAAA" (at_ 1001))))
     = 4%nat.
Proof.
  pose proof (processing_gates_clicks_not_files pickedThenAsked eq_refl)
    as (gated & _ & _ & files).
  split; [apply gated|].
  destruct (files 0%nat _ "data:image/png;base64,AAAA" (at_ 1001) eq_refl) as [E _].
  rewrite E. reflexivity.
Defined.

Lemma app_one_not_nil {A : Type} (l : list A) (a : A) : (l ++ [a])%list <> [].
Proof.
  intros E. apply app_eq_nil in E as [_ E]. discriminate.
Qed.

(** X11. The lock is never leaked: in every state a session can reach,
    when the processing flag is set there is a fetch in flight or a
    release timer pending. *)
Theorem processing_is_never_leaked (s : State) :
  Reachable s ->
  isProcessing s = true ->
  inflight s <> [] \/ releaseTimers s <> [].
Proof.
  induction 1 as [| s e _ IH]; [discriminate|].
  destruct e as [text | clk | i txt clk | clk | file | r b64 clk | k result now | k | i];
    cbn.
  - exact IH.
  - unfold handleSubmit. destruct (submits s); [| exact IH].
    cbn. intros _. left. apply app_one_not_nil.
  - destruct (offers s i txt); [| exact IH].
    cbn. intros _. left. apply app_one_not_nil.
  - destruct (landing s); [| exact IH].
    cbn. intros _. left. apply app_one_not_nil.
  - exact IH.
  - destruct (nth_error (readers s) r); [| exact IH].
    cbn. intros _. left. apply app_one_not_nil.
  - destruct (nth_error (inflight s) k) as [req|]; [| exact IH].
    destruct result as [message | status [message | data text]]; cbn;
      try destruct (ok status); cbn; try discriminate.
    intros _. right. apply app_one_not_nil.
  - destruct (nth_error (releaseTimers s) k); [cbn; discriminate | exact IH].
  - destruct (timer (viewAt s i)); [cbn | ]; exact IH.
Qed.

Lemma processing_is_never_leaked_witness :
  inflight askedSession <> [] \/ releaseTimers askedSession <> [].
Proof.
  apply processing_is_never_leaked; [| reflexivity].
  apply Reachable_run. constructor.
Defined.

(** X12. While the processing flag is set the process log is one of the
    two texts the dispatcher writes, so the thinking indicator is on the
    page exactly when the flag is set. *)
Theorem indicator_follows_processing (s : State) :
  Reachable s ->
  (isProcessing s = true ->
   currentProcessLog s = "Analyzing request..."
   \/ currentProcessLog s = "Cross-referencing safety guidelines...")
  /\ indicatorShown s = isProcessing s.
Proof.
  intros Hs.
  assert (H : isProcessing s = true ->
              currentProcessLog s = "Analyzing request..."
              \/ currentProcessLog s = "Cross-referencing safety guidelines...").
  { induction Hs as [| s e _ IH]; [discriminate|].
    destruct e as [text | clk | i txt clk | clk | file | r b64 clk | k result now | k | i];
      cbn.
    - exact IH.
    - unfold handleSubmit. destruct (submits s); [cbn; now left | exact IH].
    - destruct (offers s i txt); [cbn; now left | exact IH].
    - destruct (landing s); [cbn; now left | exact IH].
    - exact IH.
    - destruct (nth_error (readers s) r); [cbn; now left | exact IH].
    - destruct (nth_error (inflight s) k) as [req|]; [| exact IH].
      destruct result as [message | status [message | data text]]; cbn;
        try destruct (ok status); cbn; try discriminate.
      now right.
    - destruct (nth_error (releaseTimers s) k); [cbn; discriminate | exact IH].
    - destruct (timer (viewAt s i)); [cbn | ]; exact IH. }
  split; [exact H|].
  unfold indicatorShown. destruct (isProcessing s); [| reflexivity].
  destruct (H eq_refl) as [-> | ->]; reflexivity.
Qed.

Lemma indicator_follows_processing_witness :
  indicatorShown answeredSession = true
  /\ currentProcessLog answeredSession = "Cross-referencing safety guidelines...".
Proof.
  assert (R : Reachable answeredSession).
  { apply ReachStep. apply Reachable_run. constructor. }
  destruct (indicator_follows_processing answeredSession R) as [_ E].
  split; [rewrite E|]; reflexivity.
Defined.

(** ** Every way a call can fail *)

(** X13. However a call fails (the fetch is rejected, the body of the
    response is not JSON whatever its status, or the status is not ok),
    the [catch] block does the same: the turn of the call gets verdict
    "CAUTION", the reasoning "Error connecting to AI Server: <message>."
    and a null subject; the processing flag is dropped at once, the
    process log emptied, no release timer armed, and the profile is left
    as it was. *)
Theorem every_failure_falls_back (s : State) (k : nat) (req : Request)
  (result : FetchResult) (now : Z) (message : string) :
  Reachable s ->
  nth_error (inflight s) k = Some req ->
  thrown result = Some message ->
  let s' := step s (FetchSettled k result now) in
  (exists m, In m (messages s') /\ id m = req_agentMsgId req /\ type m = agent)
  /\ (forall m,
         In m (messages s') -> id m = req_agentMsgId req ->
         final_verdict (payloadOf m) = Some "CAUTION"
         /\ reasoning (payloadOf m)
            = Some ("Error connecting to AI Server: " ++ message ++ ".")%string
         /\ product_json (payloadOf m) = Some Js.Null)
  /\ isProcessing s' = false
  /\ currentProcessLog s' = ""
  /\ releaseTimers s' = releaseTimers s
  /\ userProfile s' = userProfile s
  /\ inflight s' = removeNth k (inflight s).
Proof.
  intros Hs Hk Ht s'. subst s'. rewrite (step_thrown s k req result now message Hk Ht).
  split; [| split; [| repeat split]].
  - cbn [render messages onError forget]. apply owned_updateAgentMsg.
    pose proof (Reachable_owned s Hs) as Hown.
    rewrite Forall_forall in Hown. apply Hown.
    now apply nth_error_In with (n := k).
  - intros m Hin Hid. cbn [render messages onError forget] in Hin.
    destruct (fallback_merged _ _ _ _ Hin Hid) as (Hv & Hr & Hp & _).
    now repeat split.
Qed.

Lemma every_failure_falls_back_witness :
  let s' := step askedSession (FetchSettled 0 (Rejected "Failed to fetch") 1200) in
  isProcessing s' = false
  /\ exists m,
      nth_error (messages s') 1 = Some m
      /\ reasoning (payloadOf m)
         = Some "Error connecting to AI Server: Failed to fetch.".
Proof.
  assert (R : Reachable askedSession) by (apply Reachable_run; constructor).
  pose proof (every_failure_falls_back askedSession 0
                (Build_Request "1001" None "Is it safe?" DEFAULT_PROFILE None [] None)
                (Rejected "Failed to fetch") 1200 "Failed to fetch" R eq_refl eq_refl)
    as (_ & merged & released & _).
  split; [exact released|].
  set (s' := step askedSession (FetchSettled 0 (Rejected "Failed to fetch") 1200))
    in *.
  exists (nth 1 (messages s') (userMsg (at_ 0) "")).
  split; [reflexivity|].
  assert (Hin : In (nth 1 (messages s') (userMsg (at_ 0) "")) (messages s')).
  { apply nth_In. vm_compute. lia. }
  exact (proj1 (proj2 (merged _ Hin eq_refl))).
Defined.

(** X14. A fetch that settles, however it settles, leaves its turn no
    longer pending: every turn with the identifier of the call has the
    pending flag cleared, and the fetch is no longer in flight. *)
Theorem settled_fetch_clears_pending (s : State) (k : nat) (req : Request)
  (result : FetchResult) (now : Z) :
  Reachable s ->
  nth_error (inflight s) k = Some req ->
  let s' := step s (FetchSettled k result now) in
  (exists m, In m (messages s') /\ id m = req_agentMsgId req /\ type m = agent)
  /\ (forall m, In m (messages s') -> id m = req_agentMsgId req ->
                isStreaming m = Some false /\ agentResponse m <> None)
  /\ List.length (inflight s') = pred (List.length (inflight s)).
Proof.
  intros Hs Hk s'. subst s'. cbn [step]. rewrite Hk.
  destruct (settle_messages now req result (forget k s)) as (u & Hu).
  cbn [render messages inflight]. rewrite Hu. cbn [forget messages].
  split; [| split].
  - apply owned_updateAgentMsg.
    pose proof (Reachable_owned s Hs) as Hown.
    rewrite Forall_forall in Hown. apply Hown.
    now apply nth_error_In with (n := k).
  - intros m Hin Hid. unfold updateAgentMsg in Hin.
    apply in_map_iff in Hin as (m0 & <- & _).
    destruct (String.eqb_spec (id m0) (req_agentMsgId req)) as [_ | Hne].
    + split; [reflexivity | discriminate].
    + now elim Hne.
  - assert (E : inflight (settle now req result (forget k s))
                = removeNth k (inflight s)).
    { destruct result as [message | status [message | data text]]; cbn;
        try destruct (ok status); reflexivity. }
    rewrite E. clear - Hk. revert k Hk.
    induction (inflight s) as [|a l IH]; intros [|k] Hk; try discriminate.
    + reflexivity.
    + cbn in Hk. cbn. rewrite (IH k Hk).
      destruct l; [destruct k; discriminate | reflexivity].
Qed.

Lemma settled_fetch_clears_pending_witness :
  exists m,
    nth_error (messages answeredSession) 1 = Some m
    /\ isStreaming m = Some false.
Proof.
  assert (R : Reachable askedSession) by (apply Reachable_run; constructor).
  pose proof (settled_fetch_clears_pending askedSession 0
                (Build_Request "1001" None "Is it safe?" DEFAULT_PROFILE None [] None)
                (Responded 200 (Json (onlyVerdict "SAFE") "{}")) 1200 R eq_refl)
    as (_ & cleared & _).
  exists (nth 1 (messages answeredSession) (userMsg (at_ 0) "")).
  split; [reflexivity|].
  assert (Hin : In (nth 1 (messages answeredSession) (userMsg (at_ 0) ""))
                  (messages answeredSession)).
  { apply nth_In. vm_compute. lia. }
  exact (proj1 (cleared _ Hin eq_refl)).
Defined.
(** ** The profile and the attached image *)

(** X15. The profile changes in one way only: a step that changes it is
    the success of a fetch whose payload carries a profile, and the new
    profile is that one, whole. *)
Theorem profile_changes_only_on_success (s : State) (e : Event) :
  userProfile (step s e) <> userProfile s ->
  exists k req status data text now p,
    e = FetchSettled k (Responded status (Json data text)) now
    /\ nth_error (inflight s) k = Some req
    /\ ok status = true
    /\ user_profile data = Some p
    /\ userProfile (step s e) = p.
Proof.
  destruct e as [text | clk | i txt clk | clk | file | r b64 clk | k result now | k | i];
    cbn.
  - intros H; now elim H.
  - unfold handleSubmit. destruct (submits s); intros H; now elim H.
  - destruct (offers s i txt); intros H; now elim H.
  - destruct (landing s); intros H; now elim H.
  - intros H; now elim H.
  - destruct (nth_error (readers s) r); intros H; now elim H.
  - destruct (nth_error (inflight s) k) as [req|] eqn:Hk; [| intros H; now elim H].
    destruct result as [message | status [message | data text]]; cbn;
      try (intros H; now elim H).
    + destruct (ok status); intros H; now elim H.
    + destruct (ok status) eqn:Hok; cbn; [| intros H; now elim H].
      destruct (user_profile (withImage (req_imageData req) data)) as [p|] eqn:Hp;
        [| intros H; now elim H].
      intros _. exists k, req, status, data, text, now, p.
      repeat split; try assumption.
      unfold withImage in Hp. now destruct (Js.truthyStr (req_imageData req)).
  - destruct (nth_error (releaseTimers s) k); intros H; now elim H.
  - destruct (timer (viewAt s i)); intros H; now elim H.
Qed.

(** X16. On success the image the call was made with, when there is one,
    is what the turn keeps, whatever the backend sent for [image_data];
    a call without image keeps the backend's [image_data] when the
    payload has the key, and what the turn had otherwise. *)
Theorem local_image_wins (s : State) (k : nat) (req : Request) (status : Z)
  (data : AgentResponse) (text : string) (now : Z) (i : nat) (m : Message) :
  nth_error (inflight s) k = Some req ->
  ok status = true ->
  nth_error (messages s) i = Some m ->
  id m = req_agentMsgId req ->
  exists m',
    nth_error (messages (step s (FetchSettled k (Responded status (Json data text)) now))) i
    = Some m'
    /\ image_data (payloadOf m')
       = if Js.truthyStr (req_imageData req)
         then Some (req_imageData req)
         else over (image_data (payloadOf m)) (image_data data).
Proof.
  intros Hk Hok Hi Hid.
  rewrite (step_answered_fetch s k req status data text now Hk Hok).
  cbn [render messages onSuccess forget].
  rewrite (updateAgentMsg_nth _ _ _ _ _ Hi).
  apply String.eqb_eq in Hid. rewrite Hid.
  eexists. split; [reflexivity|].
  unfold payloadOf at 1. cbn [merged agentResponse spread image_data].
  unfold withImage, payloadOf.
  destruct (Js.truthyStr (req_imageData req)); reflexivity.
Qed.

Lemma local_image_wins_witness :
  exists m',
    nth_error (messages answeredSession) 1 = Some m'
    /\ image_data (payloadOf m') = Some None.
Proof.
  destruct (local_image_wins askedSession 0
              (Build_Request "1001" None "Is it safe?" DEFAULT_PROFILE None [] None)
              200 (onlyVerdict "SAFE") "{}" 1200 1
              (agentMsg (at_ 1000) "Is it safe?" None)
              eq_refl eq_refl eq_refl eq_refl) as (m' & Hm' & Himg).
  exists m'. split; [exact Hm' | exact Himg].
Defined.

Lemma profile_changes_only_on_success_witness :
  userProfile
    (step askedSession
       (FetchSettled 0 (Responded 200 (Json (onlyProfile nutAllergy) "{}")) 1200))
  = nutAllergy.
Proof.
  destruct (profile_changes_only_on_success askedSession
              (FetchSettled 0 (Responded 200 (Json (onlyProfile nutAllergy) "{}")) 1200))
    as (k & req & status & data & text & now & p & E & _ & _ & Hp & Hnew).
  - vm_compute. discriminate.
  - injection E as <- <- <- <- <-. rewrite Hnew.
    cbn in Hp. now injection Hp as <-.
Defined.

(** ** The views through a step *)

(** A step leaves the views, the flag and the log alone, or renders: the
    views after are the render of the views before, or of those with one
    due reveal applied. *)
Lemma step_views (s : State) (e : Event) :
  (views (step s e) = views s
   /\ isProcessing (step s e) = isProcessing s
   /\ messages (step s e) = messages s)
  \/ exists now V,
      views (step s e)
      = renderViews now (isProcessing (step s e)) (messages (step s e)) V
      /\ (V = views s
          \/ exists i due, timer (viewAt s i) = Some due /\ V = views (reveal i s)).
Proof.
  destruct e as [text | clk | i txt clk | clk | file | r b64 clk | k result now | k | i];
    cbn.
  - now left.
  - unfold handleSubmit. destruct (submits s); [| now left].
    right. do 2 eexists. split; [reflexivity | now left].
  - destruct (offers s i txt); [| now left].
    right. do 2 eexists. split; [reflexivity | now left].
  - destruct (landing s); [| now left].
    right. do 2 eexists. split; [reflexivity | now left].
  - now left.
  - destruct (nth_error (readers s) r); [| now left].
    right. do 2 eexists. split; [reflexivity | now left].
  - destruct (nth_error (inflight s) k) as [req|]; [| now left].
    right. exists now, (views s). split; [| now left].
    destruct result as [message | status [message | data text]]; cbn;
      try destruct (ok status); reflexivity.
  - destruct (nth_error (releaseTimers s) k); [| now left].
    right. do 2 eexists. split; [reflexivity | now left].
  - destruct (timer (viewAt s i)) as [due|] eqn:Ht; [| now left].
    right. do 2 eexists. split; [reflexivity|]. right. now exists i, due.
Qed.

Lemma Reachable_views_length (s : State) :
  Reachable s -> List.length (views s) = List.length (messages s).
Proof.
  induction 1 as [| s e _ IH]; [reflexivity|].
  destruct (step_views s e) as [(Ev & _ & Em) | (now & V & Ev & _)].
  - now rewrite Ev, Em.
  - rewrite Ev. apply renderViews_length.
Qed.

Lemma viewAt_beyond (s : State) (i : nat) :
  (List.length (views s) <= i)%nat -> viewAt s i = unmounted.
Proof.
  intros H. unfold viewAt. now apply nth_overflow.
Qed.

Lemma nth_setNth_cases {A : Type} (i j : nat) (a d : A) (l : list A) :
  nth i (setNth j a l) d = a \/ nth i (setNth j a l) d = nth i l d.
Proof.
  revert i j. induction l as [|x l IH]; intros i j.
  - right. now destruct j.
  - destruct j as [|j], i as [|i]; cbn; auto.
Qed.

Lemma step_keeps_revealed (s : State) (e : Event) (i : nat) :
  Reachable s ->
  showResults (viewAt s i) = true ->
  showResults (viewAt (step s e) i) = true.
Proof.
  intros Hs Hshow.
  assert (Hi : (i < List.length (messages s))%nat).
  { rewrite <- (Reachable_views_length s Hs).
    destruct (Nat.lt_ge_cases i (List.length (views s))) as [H | H]; [exact H|].
    rewrite (viewAt_beyond s i H) in Hshow. discriminate. }
  destruct (nth_error (messages s) i) as [m|] eqn:Hm;
    [| apply nth_error_None in Hm; lia].
  destruct (step_keeps_turns s e i m Hm) as (m' & Hm' & _).
  destruct (step_views s e) as [(Ev & _ & _) | (now & V & Ev & HV)].
  - unfold viewAt. now rewrite Ev.
  - unfold viewAt. rewrite Ev, (renderViews_nth _ _ _ _ _ _ Hm').
    assert (HVi : showResults (nth i V unmounted) = true).
    { destruct HV as [-> | (j & due & _ & ->)]; [exact Hshow|].
      cbn [reveal views].
      destruct (nth_setNth_cases i j
                  {| showResults := true; isExpanded := false;
                     deps := deps (viewAt s j); timer := None |}
                  unmounted (views s)) as [-> | ->]; [reflexivity | exact Hshow]. }
    destruct (type m'), (agentResponse m'); try exact HVi.
    now rewrite runEffect_showResults.
Qed.

(** X17. The reveal is one way: once the view of a turn shows its
    results it shows them after every further run of events. *)
Theorem reveal_is_one_way (s : State) (events : list Event) (i : nat) :
  Reachable s ->
  showResults (viewAt s i) = true ->
  showResults (viewAt (run s events) i) = true.
Proof.
  revert s. induction events as [|e events IH]; intros s Hs Hshow; [exact Hshow|].
  change (run s (e :: events)) with (run (step s e) events).
  apply IH; [now constructor | now apply step_keeps_revealed].
Qed.

Lemma reveal_is_one_way_witness :
  showResults
    (viewAt (run revealedSession [InputChange "And this?"; Submit (at_ 9000)]) 1)
  = true.
Proof.
  apply reveal_is_one_way; [| reflexivity].
  unfold revealedSession. apply Reachable_run. apply ReachStep.
  apply Reachable_run. constructor.
Defined.

Lemma Reachable_armed (s : State) :
  Reachable s ->
  forall i due,
    timer (viewAt s i) = Some due ->
    isProcessing s = false
    /\ (exists verdict, deps (viewAt s i) = Some (false, verdict))
    /\ exists m, nth_error (messages s) i = Some m /\ type m = agent.
Proof.
  induction 1 as [| s e Hs IH]; intros i due Ht.
  - unfold viewAt in Ht. cbn in Ht. now destruct i.
  - destruct (step_views s e) as [(Ev & Ep & Em) | (now & V & Ev & HV)].
    + unfold viewAt in *. rewrite Ev in Ht. rewrite Ev, Ep, Em. now apply (IH i due).
    + assert (Hlen : (i < List.length (messages (step s e)))%nat).
      { destruct (Nat.lt_ge_cases i (List.length (messages (step s e))))
          as [H | H]; [exact H|].
        unfold viewAt in Ht. rewrite Ev, nth_overflow in Ht; [discriminate|].
        now rewrite renderViews_length. }
      destruct (nth_error (messages (step s e)) i) as [m'|] eqn:Hm';
        [| apply nth_error_None in Hm'; lia].
      assert (Q : forall d, timer (nth i V unmounted) = Some d ->
                  (exists verdict, deps (nth i V unmounted) = Some (false, verdict))
                  /\ exists m, nth_error (messages s) i = Some m /\ type m = agent).
      { intros d Hd. destruct HV as [-> | (j & dj & _ & ->)].
        - now destruct (IH i d Hd) as (_ & ? & ?).
        - cbn [reveal views] in *.
          destruct (nth_setNth_cases i j
                      {| showResults := true; isExpanded := false;
                         deps := deps (viewAt s j); timer := None |}
                      unmounted (views s)) as [E | E]; rewrite E in *.
          + discriminate.
          + now destruct (IH i d Hd) as (_ & ? & ?). }
      unfold viewAt in *. rewrite Ev in *.
      rewrite (renderViews_nth _ _ _ _ _ _ Hm') in *.
      destruct (type m') eqn:Hty.
      * destruct (Q due Ht) as (_ & m & Hm & Hagent).
        destruct (step_keeps_turns s e i m Hm) as (m'' & Hm'' & _ & Hty'' & _).
        rewrite Hm' in Hm''. injection Hm'' as <-. congruence.
      * destruct (agentResponse m') as [data|] eqn:Hdata.
        -- unfold runEffect in *.
           destruct (sameDeps (deps (nth i V unmounted))
                       (isProcessing (step s e), final_verdict data)) eqn:Hsame.
           ++ destruct (Q due Ht) as ((verdict & Hdeps) & _).
              rewrite Hdeps in Hsame. cbn in Hsame.
              destruct (isProcessing (step s e)); [discriminate|].
              split; [reflexivity|]. split; [eauto | eauto].
           ++ cbn in Ht. cbn.
              destruct (isProcessing (step s e)); [discriminate|].
              split; [reflexivity|]. split; eauto.
        -- exfalso.
           pose proof (Reachable_carriesPayload _ (ReachStep s e Hs)) as Hall.
           rewrite Forall_forall in Hall.
           apply (Hall m' (nth_error_In _ _ Hm') Hty Hdata).
Qed.

Lemma accepts_sets_processing (s : State) (e : Event) :
  accepts s e = true -> isProcessing (step s e) = true.
Proof.
  destruct e as [text | clk | i txt clk | clk | file | r b64 clk | k result now | k | i];
    cbn; try discriminate; intros H.
  - unfold handleSubmit. now rewrite H.
  - now rewrite H.
  - now rewrite H.
  - destruct (nth_error (readers s) r); [reflexivity | discriminate].
Qed.

(** X18. A reveal timer is pending only while the flag is down and only
    for an agent turn: in every state a session can reach, while the flag
    is set no view has a timer pending; so a call of the dispatcher
    cancels the reveals that were still due. *)
Theorem no_reveal_pending_while_processing (s : State) :
  Reachable s ->
  (isProcessing s = true -> forall i, timer (viewAt s i) = None)
  /\ (forall i due,
         timer (viewAt s i) = Some due ->
         exists m, nth_error (messages s) i = Some m /\ type m = agent)
  /\ (forall e i, accepts s e = true -> timer (viewAt (step s e) i) = None).
Proof.
  intros Hs.
  assert (H : forall t, Reachable t -> isProcessing t = true ->
                        forall i, timer (viewAt t i) = None).
  { intros t Ht Hp i. destruct (timer (viewAt t i)) as [due|] eqn:E; [| reflexivity].
    destruct (Reachable_armed t Ht i due E) as (Hidle & _). congruence. }
  split; [now apply H|]. split.
  - intros i due Ht. now destruct (Reachable_armed s Hs i due Ht) as (_ & _ & ?).
  - intros e i Ha. apply H; [now constructor | now apply accepts_sets_processing].
Qed.

Lemma no_reveal_pending_while_processing_witness :
  timer (viewAt (step answeredSession (ReleaseFires 0)) 1) = Some 5700
  /\ timer (viewAt (run answeredSession
                      [ReleaseFires 0; InputChange "And this?"; Submit (at_ 4300)]) 1)
     = None.
Proof.
  split; [reflexivity|].
  assert (R : Reachable (run answeredSession [ReleaseFires 0; InputChange "And this?"])).
  { apply Reachable_run. apply ReachStep. apply Reachable_run. constructor. }
  destruct (no_reveal_pending_while_processing _ R) as (_ & _ & cancels).
  apply (cancels (Submit (at_ 4300)) 1%nat). reflexivity.
Defined.

(** ** Identifiers *)

Lemma to_int_proper (z : Z) :
  Z.to_int z <> Decimal.Pos Decimal.Nil /\ Z.to_int z <> Decimal.Neg Decimal.Nil.
Proof.
  destruct z as [|p|p]; cbn; split; try discriminate;
    intros [= H]; now apply DecimalPos.Unsigned.to_uint_nonnil in H.
Qed.

Lemma toString_inj (a b : Z) : Js.toString a = Js.toString b -> a = b.
Proof.
  unfold Js.toString. intros H.
  apply (f_equal NilZero.int_of_string) in H.
  destruct (to_int_proper a) as [Ha Ha'], (to_int_proper b) as [Hb Hb'].
  rewrite !NilZero.isi in H by assumption.
  injection H as H. apply (f_equal Z.of_int) in H.
  now rewrite !DecimalZ.of_to in H.
Qed.

(** X19. Identifiers are the clock readings in decimal, so two of them
    are equal exactly when the readings are: the two turns of one call
    differ as long as the clock did not run backwards between the two
    readings, and the user turn of a call gets the identifier of the
    agent turn of another exactly when it reads the clock one
    millisecond after that one did. *)
Theorem identifiers_follow_the_clock :
  (forall a b, Js.toString a = Js.toString b <-> a = b)
  /\ (forall clk prompt imageData,
         nowUser clk <= nowAgent clk ->
         id (userMsg clk prompt) <> id (agentMsg clk prompt imageData))
  /\ (forall clk clk' prompt prompt' imageData,
         id (userMsg clk' prompt') = id (agentMsg clk prompt imageData)
         <-> nowUser clk' = nowAgent clk + 1).
Proof.
  split; [| split].
  - intros a b. split; [apply toString_inj | now intros ->].
  - intros clk prompt imageData H E. cbn in E. apply toString_inj in E. lia.
  - intros clk clk' prompt prompt' imageData. cbn. split.
    + apply toString_inj.
    + now intros ->.
Qed.

Lemma identifiers_follow_the_clock_witness :
  id (userMsg (at_ 1000) "a") <> id (agentMsg (at_ 1000) "a" None).
Proof.
  apply (proj1 (proj2 identifiers_follow_the_clock)). cbn. lia.
Defined.

(** ** handleSubmit when it accepts *)

Lemma trimStart_head (s : string) :
  onlyWhiteSpace s = false ->
  exists c rest, trimStart s = String c rest /\ isWhiteSpace c = false.
Proof.
  induction s as [|c s IH]; cbn [onlyWhiteSpace trimStart]; [discriminate|].
  destruct (isWhiteSpace c) eqn:E; cbn [andb]; [exact IH | eauto].
Qed.

Lemma nonEmpty_trim (s : string) :
  nonEmpty (trim s) = negb (onlyWhiteSpace s).
Proof.
  destruct (onlyWhiteSpace s) eqn:E.
  - now rewrite trim_onlyWhiteSpace.
  - destruct (trimStart_head s E) as (c & rest & Hs & Hc).
    unfold trim. rewrite Hs. cbn [trimEnd]. rewrite Hc.
    now destruct (trimEnd rest).
Qed.

(** X20. [handleSubmit] goes through exactly when the input has a code
    unit that is not white space and the flag is down.  It then sends the
    input as typed, not trimmed: the user turn holds it, the query is the
    digest of the log followed by it, with the current profile and no
    file; the input box is emptied and the flag set. *)
Theorem handleSubmit_accepts (s : State) (clk : Readings) :
  submits s = negb (onlyWhiteSpace (inputValue s)) && negb (isProcessing s)
  /\ (submits s = true ->
      let s' := step s (Submit clk) in
      messages s'
      = ((messages s ++ [userMsg clk (inputValue s)])
         ++ [agentMsg clk (inputValue s) None])%list
      /\ inputValue s' = ""
      /\ isProcessing s' = true
      /\ exists req,
          inflight s' = (inflight s ++ [req])%list
          /\ req_agentMsgId req = id (agentMsg clk (inputValue s) None)
          /\ form_user_query req
             = (memoryContext (messages s) ++ inputValue s)%string
          /\ form_user_profile req = userProfile s
          /\ form_file req = None
          /\ form_image_data req = None).
Proof.
  split.
  - unfold submits. now rewrite nonEmpty_trim.
  - intros H s'. subst s'. cbn [step]. unfold handleSubmit. rewrite H.
    cbn. repeat split. eexists. repeat split.
    apply finalPromptToSend_prepends.
Qed.

Lemma handleSubmit_accepts_witness :
  content (nth 0 (messages (step (typed "  Is it safe? ") (Submit (at_ 1000))))
             (userMsg (at_ 0) ""))
  = "  Is it safe? ".
Proof.
  destruct (handleSubmit_accepts (typed "  Is it safe? ") (at_ 1000)) as [_ H].
  destruct (H eq_refl) as (E & _). rewrite E. reflexivity.
Defined.

(** ** The closure of a file reader *)

Lemma step_keeps_readers (s : State) (e : Event) :
  isFileEvent e = false -> readers (step s e) = readers s.
Proof.
  destruct e as [text | clk | i txt clk | clk | file | r b64 clk | k result now | k | i];
    cbn; try discriminate; intros _; try reflexivity.
  - unfold handleSubmit. now destruct (submits s).
  - now destruct (offers s i txt).
  - now destruct (landing s).
  - destruct (nth_error (inflight s) k) as [req|]; [| reflexivity].
    destruct result as [message | status [message | data text]]; cbn;
      try destruct (ok status); reflexivity.
  - now destruct (nth_error (releaseTimers s) k).
  - now destruct (timer (viewAt s i)).
Qed.

Lemma run_keeps_readers (s : State) (events : list Event) :
  forallb (fun e => negb (isFileEvent e)) events = true ->
  readers (run s events) = readers s.
Proof.
  revert s. induction events as [|e events IH]; intros s H; [reflexivity|].
  cbn in H. apply andb_prop in H as [He H].
  change (run s (e :: events)) with (run (step s e) events).
  rewrite (IH _ H). apply step_keeps_readers. now destruct (isFileEvent e).
Qed.

(** X21. The call made when a file has loaded runs in the closure of the
    moment the file was picked: whatever was asked and answered in
    between, its query is built from the log as it was when the file was
    picked, and it carries the profile of that moment; its two turns
    are appended to the log as it is now. *)
Theorem file_call_sees_log_at_pick_time (s : State) (file : File)
  (events : list Event) (base64String : string) (clk : Readings) :
  forallb (fun e => negb (isFileEvent e)) events = true ->
  let picked := step s (FileChosen file) in
  let later := run picked events in
  let s' := step later (FileLoaded (List.length (readers s)) base64String clk) in
  messages s'
  = ((messages later ++ [userMsg clk "Analyze this label"])
     ++ [agentMsg clk "Analyze this label" (Some base64String)])%list
  /\ exists req,
      inflight s' = (inflight later ++ [req])%list
      /\ form_user_query req
         = (memoryContext (messages s) ++ "Analyze this label")%string
      /\ form_user_profile req = userProfile s
      /\ form_file req = Some file
      /\ req_imageData req = Some base64String.
Proof.
  intros H picked later s'.
  assert (Hr : nth_error (readers later) (List.length (readers s))
               = Some {| readerFile := file; readerSeen := closureOf s |}).
  { unfold later. rewrite (run_keeps_readers _ _ H). cbn.
    rewrite nth_error_app2 by lia. now rewrite Nat.sub_diag. }
  subst s'. cbn [step]. rewrite Hr. cbn. split; [reflexivity|].
  eexists. repeat split. apply finalPromptToSend_prepends.
Qed.

Lemma file_call_sees_log_at_pick_time_witness :
  exists req,
    nth_error (inflight (step pickedThenAsked
                           (FileLoaded 0 "data:image/png;base64,AAAA" (at_ 1001)))) 1
    = Some req
    /\ form_user_query req = "Analyze this label".
Proof.
  destruct (file_call_sees_log_at_pick_time initial "label.png"
              [InputChange "Is it safe?"; Submit (at_ 1000)]
              "data:image/png;base64,AAAA" (at_ 1001) eq_refl)
    as (_ & req & Hin & Hq & _).
  exists req. split; [| exact Hq].
  change (step (run (step initial (FileChosen "label.png"))
                  [InputChange "Is it safe?"; Submit (at_ 1000)])
            (FileLoaded (List.length (readers initial))
               "data:image/png;base64,AAAA" (at_ 1001)))
    with (step pickedThenAsked (FileLoaded 0 "data:image/png;base64,AAAA" (at_ 1001)))
    in Hin.
  rewrite Hin. reflexivity.
Defined.
(** ** The log over a whole session *)

(** X22. After any sequence of events from the start, the log has two
    turns for each call of the dispatcher the events made, and its roles
    alternate: user, agent, user, agent, ending on an agent turn. *)
Theorem session_log_shape (events : list Event) :
  List.length (messages (run initial events)) = (2 * accepted initial events)%nat
  /\ alternating user (messages (run initial events)) = true.
Proof.
  split.
  - now rewrite log_after_submissions.
  - apply Reachable_alternating. apply Reachable_run. constructor.
Qed.

(** X23. The log is append-only over any run of events: a turn stays at
    its position, with its identifier, role, text and time. *)
Theorem log_is_append_only (s : State) (events : list Event) (i : nat)
  (m : Message) :
  nth_error (messages s) i = Some m ->
  exists m',
    nth_error (messages (run s events)) i = Some m'
    /\ id m' = id m /\ type m' = type m /\ content m' = content m
    /\ timestamp m' = timestamp m.
Proof.
  revert s m. induction events as [|e events IH]; intros s m H.
  - exists m. now repeat split.
  - change (run s (e :: events)) with (run (step s e) events).
    destruct (step_keeps_turns s e i m H) as (m1 & H1 & Eid & Ety & Ec & Et).
    destruct (IH _ _ H1) as (m' & H' & Eid' & Ety' & Ec' & Et').
    exists m'. repeat split; congruence.
Qed.

Lemma log_is_append_only_witness :
  exists m',
    nth_error (messages clashAnswered) 2 = Some m'
    /\ content m' = "Analyze this label" /\ type m' = user.
Proof.
  destruct (log_is_append_only clashSession
              [FetchSettled 0 (Responded 200 (Json (onlyVerdict "SAFE") "{}")) 1500]
              2 (userMsg (at_ 1001) "Analyze this label") eq_refl)
    as (m' & H & _ & Hty & Hc & _).
  exists m'. repeat split; assumption.
Defined.

(** X24. The only thing a step does to a turn already in the log is to
    merge an answer into it: if a turn differs after a step, the step is
    the settling of a fetch in flight that carried the identifier of the
    turn, and the turn is the old one with the result of that fetch
    merged in: the fallback for the message thrown when the call failed,
    the decoded payload (with the image of the call, if any) when it
    succeeded. *)
Theorem turn_changes_only_by_merge (s : State) (e : Event) (i : nat)
  (m m' : Message) :
  nth_error (messages s) i = Some m ->
  nth_error (messages (step s e)) i = Some m' ->
  m' <> m ->
  exists k req result now,
    e = FetchSettled k result now
    /\ nth_error (inflight s) k = Some req
    /\ req_agentMsgId req = id m
    /\ ((exists message,
            thrown result = Some message
            /\ m' = merged m (fallback message))
        \/ (exists status data text,
               result = Responded status (Json data text)
               /\ ok status = true
               /\ m' = merged m (withImage (req_imageData req) data))).
Proof.
  intros H H' Hne.
  assert (same : nth_error (messages s) i = Some m' -> False).
  { intros E. rewrite H in E. injection E as <-. now elim Hne. }
  assert (grown : forall tail,
             nth_error (messages s ++ tail) i = Some m' -> False).
  { intros tail E. rewrite nth_error_app1, H in E.
    - injection E as <-. now elim Hne.
    - apply nth_error_Some. rewrite H. discriminate. }
  destruct e as [text | clk | j txt clk | clk | file | r b64 clk | k result now | k | j];
    cbn in H'.
  - now elim same.
  - unfold handleSubmit in H'. destruct (submits s); cbn in H';
      [rewrite <- app_assoc in H'; now elim (grown _ H') | now elim same].
  - destruct (offers s j txt); cbn in H';
      [rewrite <- app_assoc in H'; now elim (grown _ H') | now elim same].
  - destruct (landing s); cbn in H';
      [rewrite <- app_assoc in H'; now elim (grown _ H') | now elim same].
  - now elim same.
  - destruct (nth_error (readers s) r); cbn in H';
      [rewrite <- app_assoc in H'; now elim (grown _ H') | now elim same].
  - destruct (nth_error (inflight s) k) as [req|] eqn:Hk; [| now elim same].
    assert (merge : forall updates,
               nth_error (updateAgentMsg (req_agentMsgId req) updates (messages s)) i
               = Some m' ->
               req_agentMsgId req = id m /\ m' = merged m updates).
    { intros updates E. rewrite (updateAgentMsg_nth _ _ _ _ _ H) in E.
      destruct (String.eqb_spec (id m) (req_agentMsgId req)) as [Eid | _];
        injection E as <-; [now split | now elim Hne]. }
    exists k, req, result, now. split; [reflexivity|]. split; [exact Hk|].
    destruct result as [message | status [message | data text]]; cbn in H'.
    + destruct (merge _ H') as [Eid ->]. split; [exact Eid|]. left. now eexists.
    + assert (E : nth_error (updateAgentMsg (req_agentMsgId req) (fallback message)
                               (messages s)) i = Some m')
        by (destruct (ok status); exact H').
      destruct (merge _ E) as [Eid ->]. split; [exact Eid|]. left. now eexists.
    + destruct (ok status) eqn:Hok; cbn in H'; destruct (merge _ H') as [Eid ->];
        (split; [exact Eid|]).
      * right. now exists status, data, text.
      * left. exists (serverError status text).
        split; [cbn; now rewrite Hok | reflexivity].
  - destruct (nth_error (releaseTimers s) k); cbn in H'; now elim same.
  - destruct (timer (viewAt s j)); cbn in H'; now elim same.
Qed.

Lemma turn_changes_only_by_merge_witness :
  nth 1 (messages answeredSession) (userMsg (at_ 0) "")
  = merged (agentMsg (at_ 1000) "Is it safe?" None) (onlyVerdict "SAFE").
Proof.
  destruct (turn_changes_only_by_merge askedSession
              (FetchSettled 0 (Responded 200 (Json (onlyVerdict "SAFE") "{}")) 1200)
              1 (agentMsg (at_ 1000) "Is it safe?" None)
              (nth 1 (messages answeredSession) (userMsg (at_ 0) "")))
    as (k & req & result & now & E & Hk & _
        & [(message & Ht & _) | (status & data & text & Er & _ & Em)]).
  - reflexivity.
  - reflexivity.
  - discriminate.
  - injection E as <- <- <-. discriminate Ht.
  - rewrite Em. injection E as <- <- <-. injection Er as <- <- <-.
    cbn in Hk. injection Hk as <-. reflexivity.
Defined.

(** X25. The research button works on the landing page only: once the
    log holds a turn, no run of events brings back a state in which
    clicking it does anything. *)
Theorem research_only_on_landing (s : State) (events : list Event)
  (clk : Readings) :
  messages s <> [] ->
  step (run s events) (ResearchClick clk) = run s events.
Proof.
  intros H. cbn [step]. unfold landing.
  rewrite log_after_submissions.
  destruct (messages s); [now elim H | reflexivity].
Qed.

Lemma research_only_on_landing_witness :
  step revealedSession (ResearchClick (at_ 9000)) = revealedSession.
Proof.
  apply (research_only_on_landing askedSession
           [FetchSettled 0 (Responded 200 (Json (onlyVerdict "SAFE") "{}")) 1200;
            ReleaseFires 0; RevealFires 1]).
  discriminate.
Defined.

(** ** The memory digest is bounded *)

Lemma recentMessages_app (older recent : list Message) :
  (6 <= List.length recent)%nat ->
  recentMessages (older ++ recent) = recentMessages recent.
Proof.
  intros H. unfold recentMessages.
  rewrite length_app, skipn_app.
  rewrite skipn_all2 by lia. cbn [app]. f_equal. lia.
Qed.

(** X26. The digest depends on the last six turns only: turns older than
    those do not change the query that is sent. *)
Theorem memoryContext_forgets_older_turns (older recent : list Message)
  (prompt : string) :
  (6 <= List.length recent)%nat ->
  memoryContext (older ++ recent) = memoryContext recent
  /\ finalPromptToSend (older ++ recent) prompt = finalPromptToSend recent prompt.
Proof.
  intros H.
  assert (E : memoryContext (older ++ recent) = memoryContext recent).
  { unfold memoryContext. rewrite (recentMessages_app older recent H).
    destruct recent as [|m recent]; [cbn in H; lia|].
    now destruct older. }
  split; [exact E|]. unfold finalPromptToSend. now rewrite E.
Qed.

Lemma memoryContext_forgets_older_turns_witness :
  memoryContext
    (userMsg (at_ 1) "old question"
     :: repeat (userMsg (at_ 2) "q") 6)
  = memoryContext (repeat (userMsg (at_ 2) "q") 6).
Proof.
  refine (proj1 (memoryContext_forgets_older_turns
                   [userMsg (at_ 1) "old question"]
                   (repeat (userMsg (at_ 2) "q") 6) "" _)).
  cbn. lia.
Defined.
(** ** From the call to the reveal *)

Lemma accepts_step (s : State) (e : Event) :
  accepts s e = true ->
  exists clk prompt imageData req,
    messages (step s e)
    = ((messages s ++ [userMsg clk prompt]) ++ [agentMsg clk prompt imageData])%list
    /\ inflight (step s e) = (inflight s ++ [req])%list
    /\ req_agentMsgId req = id (agentMsg clk prompt imageData)
    /\ isProcessing (step s e) = true
    /\ releaseTimers (step s e) = releaseTimers s
    /\ views (step s e)
       = renderViews (dateAgent clk) true (messages (step s e)) (views s).
Proof.
  destruct e as [text | clk | i txt clk | clk | file | r b64 clk | k result now | k | i];
    cbn; try discriminate; intros H.
  - unfold handleSubmit. rewrite H. cbn. do 4 eexists. repeat split.
  - rewrite H. cbn. do 4 eexists. repeat split.
  - rewrite H. cbn. do 4 eexists. repeat split.
  - destruct (nth_error (readers s) r); [| discriminate].
    cbn. do 4 eexists. repeat split.
Qed.

(** While the flag is set an inert event changes at most the input box. *)
Lemma inert_step (s : State) (e : Event) :
  Reachable s -> isProcessing s = true -> inert e = true ->
  step s e = s \/ exists text, step s e = setInputValue text s.
Proof.
  intros Hs Hp.
  destruct e as [text | clk | i txt clk | clk | file | r b64 clk | k result now | k | i];
    try discriminate; intros _.
  - right. now exists text.
  - left. cbn. unfold submits. rewrite Hp. now rewrite andb_false_r.
  - left. cbn. now rewrite offers_processing.
  - left. cbn. unfold landing. rewrite Hp. now rewrite andb_false_r.
  - left. cbn. destruct (timer (viewAt s i)) as [due|] eqn:Ht; [| reflexivity].
    destruct (Reachable_armed s Hs i due Ht) as (Hidle & _). congruence.
Qed.

Lemma inert_run (s : State) (events : list Event) :
  Reachable s -> isProcessing s = true -> forallb inert events = true ->
  Reachable (run s events)
  /\ isProcessing (run s events) = true
  /\ messages (run s events) = messages s
  /\ views (run s events) = views s
  /\ inflight (run s events) = inflight s
  /\ releaseTimers (run s events) = releaseTimers s.
Proof.
  revert s. induction events as [|e events IH]; intros s Hs Hp H.
  - now repeat split.
  - cbn in H. apply andb_prop in H as [He H].
    change (run s (e :: events)) with (run (step s e) events).
    assert (Hs' : Reachable (step s e)) by now constructor.
    destruct (inert_step s e Hs Hp He) as [E | (text & E)].
    + rewrite E in *. now apply IH.
    + destruct (IH (step s e) Hs') as (R & P & M & V & F & T);
        [rewrite E; exact Hp | exact H |].
      split; [exact R|]. split; [exact P|].
      split; [now rewrite M, E|]. split; [now rewrite V, E|].
      split; [now rewrite F, E | now rewrite T, E].
Qed.

(** The success of a fetch, seen from the turn it answers. *)
Lemma answer_step (s : State) (k : nat) (req : Request) (status : Z)
  (data : AgentResponse) (text : string) (now : Z) (i : nat) (m : Message) :
  nth_error (inflight s) k = Some req ->
  ok status = true ->
  nth_error (messages s) i = Some m ->
  id m = req_agentMsgId req ->
  type m = agent ->
  let s1 := step s (FetchSettled k (Responded status (Json data text)) now) in
  isProcessing s1 = isProcessing s
  /\ releaseTimers s1 = (releaseTimers s ++ [now + animationTime data])%list
  /\ nth_error (messages s1) i
     = Some (merged m (withImage (req_imageData req) data))
  /\ showResults (viewAt s1 i) = showResults (viewAt s i)
  /\ exists verdict, deps (viewAt s1 i) = Some (isProcessing s, verdict).
Proof.
  intros Hk Hok Hi Hid Hty s1. subst s1.
  rewrite (step_answered_fetch s k req status data text now Hk Hok).
  set (data' := withImage (req_imageData req) data).
  assert (Hm1 : nth_error (messages (onSuccess now req data (forget k s))) i
                = Some (merged m data')).
  { cbn [messages onSuccess forget]. rewrite (updateAgentMsg_nth _ _ _ _ _ Hi).
    apply String.eqb_eq in Hid. now rewrite Hid. }
  split; [reflexivity|]. split.
  { cbn [render releaseTimers onSuccess forget]. unfold data'.
    now rewrite animationTime_withImage. }
  split; [exact Hm1|]. split.
  - now rewrite (render_showResults _ _ _ _ Hm1).
  - rewrite (viewAt_render _ _ _ _ Hm1). cbn [merged type agentResponse].
    rewrite Hty. apply runEffect_deps.
Qed.

(** The release timer, seen from a turn whose view last ran its effect
    with the flag set. *)
Lemma release_step (t : State) (due : Z) (i : nat) (m : Message)
  (p : AgentResponse) (verdict : option string) :
  releaseTimers t = [due] ->
  nth_error (messages t) i = Some m ->
  type m = agent ->
  agentResponse m = Some p ->
  deps (viewAt t i) = Some (true, verdict) ->
  let s2 := step t (ReleaseFires 0) in
  isProcessing s2 = false
  /\ currentProcessLog s2 = ""
  /\ releaseTimers s2 = []
  /\ showResults (viewAt s2 i) = showResults (viewAt t i)
  /\ timer (viewAt s2 i)
     = (if Js.truthyStr (final_verdict p) then Some (due + 1500) else None)
  /\ (forall d, timer (viewAt s2 i) = Some d ->
                showResults (viewAt (step s2 (RevealFires i)) i) = true).
Proof.
  intros Hrel Hm Hty Hp Hdeps s2.
  assert (E2 : s2 = render due (release 0 t)).
  { unfold s2. cbn [step]. rewrite Hrel. reflexivity. }
  assert (Hm2 : nth_error (messages (release 0 t)) i = Some m) by exact Hm.
  assert (Hview : viewAt s2 i = runEffect due false p (viewAt t i)).
  { rewrite E2, (viewAt_render _ _ _ _ Hm2), Hty, Hp. reflexivity. }
  split; [rewrite E2; reflexivity|]. split; [rewrite E2; reflexivity|].
  split; [rewrite E2; cbn [render release releaseTimers]; now rewrite Hrel|].
  split; [rewrite Hview; apply runEffect_showResults|].
  split; [rewrite Hview; apply (runEffect_released _ _ _ _ Hdeps)|].
  intros d Hd. cbn [step]. rewrite Hd.
  rewrite render_showResults with (m := m).
  - unfold viewAt at 1. cbn [reveal views].
    rewrite nth_setNth; [reflexivity|].
    rewrite E2. cbn [render views]. rewrite renderViews_length.
    apply nth_error_Some. cbn [release messages]. rewrite Hm. discriminate.
  - cbn [reveal messages]. rewrite E2. exact Hm2.
Qed.

(** C1, amended. Take a call of the dispatcher made in a state a session
    can reach with no fetch in flight and no release timer pending, and
    let the backend answer it with success at time [now]; before and
    after the answer the user may type, submit and click, and reveal
    timers may fire, but no file is picked or finishes loading.  Then the
    processing flag is set from the call on and stays set until the
    release timer fires, which is [animationTime] after [now], a delay
    between 3000 and 5000 ms (so within 3 to 8 seconds), and not before;
    the view of the turn shows thinking all that time and still does when
    the flag drops.  At that moment its effect arms a timer of 1500 ms,
    provided the payload has a non-empty final verdict, and the view
    shows the results when that timer fires; without a verdict no timer
    is armed. *)
Theorem C1_release_then_reveal (s : State) (e : Event)
  (before after : list Event) (status : Z) (data : AgentResponse)
  (text : string) (now : Z) :
  Reachable s ->
  inflight s = [] ->
  releaseTimers s = [] ->
  accepts s e = true ->
  forallb inert before = true ->
  forallb inert after = true ->
  ok status = true ->
  let i := S (List.length (messages s)) in
  let delay := animationTime data in
  let asked := run (step s e) before in
  let answered :=
    run (step asked (FetchSettled 0 (Responded status (Json data text)) now)) after in
  let released := step answered (ReleaseFires 0) in
  3000 <= delay <= 5000
  /\ (exists m, nth_error (messages asked) i = Some m
                /\ type m = agent /\ isStreaming m = Some true)
  /\ isProcessing asked = true
  /\ showResults (viewAt asked i) = false
  /\ isProcessing answered = true
  /\ showResults (viewAt answered i) = false
  /\ releaseTimers answered = [now + delay]
  /\ isProcessing released = false
  /\ currentProcessLog released = ""
  /\ showResults (viewAt released i) = false
  /\ timer (viewAt released i)
     = (if Js.truthyStr (final_verdict data)
        then Some (now + delay + 1500) else None)
  /\ (Js.truthyStr (final_verdict data) = true ->
      showResults (viewAt (step released (RevealFires i)) i) = true).
Proof.
  intros Hs Hfl Hrel Hacc Hbefore Hafter Hok i delay asked answered released.
  destruct (accepts_step s e Hacc)
    as (clk & prompt & img & req & Hmsgs & Hin & Hreq & Hproc & Htim & Hviews).
  set (m := agentMsg clk prompt img) in *.
  assert (Hs1 : Reachable (step s e)) by now constructor.
  (* the turn of the call and its view, right after the call *)
  assert (Hi : nth_error (messages (step s e)) i = Some m).
  { rewrite Hmsgs.
    rewrite nth_error_app2 by (rewrite length_app; cbn [List.length]; unfold i; lia).
    rewrite length_app. cbn [List.length].
    replace (i - (List.length (messages s) + 1))%nat with 0%nat by (unfold i; lia).
    reflexivity. }
  assert (Hview0 : viewAt (step s e) i
                   = runEffect (dateAgent clk) true (payloadOf m) unmounted).
  { unfold viewAt. rewrite Hviews, (renderViews_nth _ _ _ _ _ _ Hi).
    cbn [m agentMsg type agentResponse].
    rewrite nth_overflow; [reflexivity|].
    rewrite (Reachable_views_length s Hs). unfold i. lia. }
  (* up to the answer *)
  destruct (inert_run (step s e) before Hs1 Hproc Hbefore)
    as (Rb & Pb & Mb & Vb & Fb & Tb).
  fold asked in Rb, Pb, Mb, Vb, Fb, Tb.
  assert (Hia : nth_error (messages asked) i = Some m) by now rewrite Mb.
  assert (Hva : viewAt asked i = viewAt (step s e) i)
    by (unfold viewAt; now rewrite Vb).
  assert (Hka : nth_error (inflight asked) 0 = Some req)
    by (rewrite Fb, Hin, Hfl; reflexivity).
  destruct (answer_step asked 0 req status data text now i m Hka Hok Hia
              (eq_sym Hreq) eq_refl)
    as (P1 & T1 & M1 & S1 & (verdict & D1)).
  set (s1 := step asked (FetchSettled 0 (Responded status (Json data text)) now)) in *.
  (* up to the release *)
  assert (R1 : Reachable s1) by now constructor.
  rewrite Pb in P1, D1.
  destruct (inert_run s1 after R1 P1 Hafter) as (Ra & Pa & Ma & Va & Fa & Ta).
  fold answered in Ra, Pa, Ma, Va, Fa, Ta.
  assert (Hvans : viewAt answered i = viewAt s1 i)
    by (unfold viewAt; now rewrite Va).
  assert (Hrelans : releaseTimers answered = [now + delay]).
  { rewrite Ta, T1, Tb, Htim, Hrel. reflexivity. }
  assert (Hshow0 : showResults (viewAt (step s e) i) = false).
  { rewrite Hview0. now rewrite runEffect_showResults. }
  assert (Hshow1 : showResults (viewAt answered i) = false).
  { now rewrite Hvans, S1, Hva. }
  set (p := spread (payloadOf m) (withImage (req_imageData req) data)).
  assert (Hverdict : final_verdict p = final_verdict data).
  { unfold p. cbn [spread final_verdict m agentMsg payloadOf agentResponse].
    rewrite final_verdict_withImage. now destruct (final_verdict data). }
  destruct (release_step answered (now + delay) i
              (merged m (withImage (req_imageData req) data)) p verdict)
    as (P2 & L2 & _ & S2 & T2 & Hreveal).
  { exact Hrelans. }
  { now rewrite Ma. }
  { reflexivity. }
  { reflexivity. }
  { now rewrite Hvans. }
  fold released in P2, L2, S2, T2, Hreveal.
  rewrite Hverdict in T2.
  split; [apply animationTime_bounds|].
  split; [exists m; now repeat split|].
  split; [exact Pb|]. split; [now rewrite Hva|].
  split; [exact Pa|]. split; [exact Hshow1|]. split; [exact Hrelans|].
  split; [exact P2|]. split; [exact L2|]. split; [now rewrite S2|].
  split; [exact T2|].
  intros Htruthy. rewrite Htruthy in T2. now apply (Hreveal _ T2).
Qed.

Lemma C1_release_then_reveal_witness :
  let answered :=
    run (typed "Is it safe?")
      [Submit (at_ 1000); InputChange "And this?"; Submit (at_ 1100);
       FetchSettled 0 (Responded 200 (Json (onlyVerdict "SAFE") "{}")) 1200;
       Submit (at_ 2000)] in
  isProcessing answered = true
  /\ releaseTimers answered = [4200]
  /\ isProcessing (step answered (ReleaseFires 0)) = false
  /\ showResults (viewAt (step answered (ReleaseFires 0)) 1) = false
  /\ timer (viewAt (step answered (ReleaseFires 0)) 1) = Some 5700
  /\ showResults
       (viewAt (step (step answered (ReleaseFires 0)) (RevealFires 1)) 1)
     = true.
Proof.
  assert (R : Reachable (typed "Is it safe?")).
  { apply (ReachStep initial (InputChange "Is it safe?")). constructor. }
  pose proof (C1_release_then_reveal (typed "Is it safe?") (Submit (at_ 1000))
                [InputChange "And this?"; Submit (at_ 1100)] [Submit (at_ 2000)]
                200 (onlyVerdict "SAFE") "{}" 1200
                R eq_refl eq_refl eq_refl eq_refl eq_refl eq_refl)
    as (_ & _ & _ & _ & Hp1 & _ & Hrel & Hp2 & _ & Hshow & Ht & Hreveal).
  cbv zeta.
  split; [exact Hp1|]. split; [exact Hrel|]. split; [exact Hp2|].
  split; [exact Hshow|]. split; [exact Ht|]. exact (Hreveal eq_refl).
Defined.
